(** * PayLog-AI: the transaction engine and the analytics engine

    A shallow embedding of the ledger operations of [src/main.py]
    ([ExpenseTracker]), of the statistics of
    [src/paylog_ai_python/analytics.py] ([ExpenseAnalytics]) and of the
    scoring functions of [src/ai_service.py], followed by the properties
    the specification states about them.

    Conventions of the embedding:
    - a Python [float] is the rational that it denotes ([Q]); results are
      compared with [==] ([Qeq]), branch conditions with the boolean tests
      of [QArith]. Where amounts are only added up and compared, the
      arithmetic is the exact one; where an answer depends on how a
      quotient rounds ([detect_trend], [calculate_goal_progress]) every
      operation is rounded to binary64 ([Py.round64]);
    - [str.lower()] is a parameter of the ledger ([Py.Lowercase]): names
      are only ever compared after lowercasing;
    - a [datetime] is a number of microseconds since the epoch ([Z]);
      a date column, written with [strftime('%d/%m/%Y')], keeps the day
      ordinal, which is all that this format keeps;
    - a worksheet is the list of its data rows (the header row is row 1 of
      the sheet, so data row [i] is sheet row [i + 2]); a worksheet that was
      never connected is [None];
    - a Python [dict] used as a map is a [gmap]. *)

From Stdlib Require Import ZArith QArith Qround Qabs Qpower Lqa String Ascii
  DecimalString.
From stdpp Require Import base option list strings gmap.

Local Open Scope Q_scope.
Local Open Scope string_scope.

(** ** Python primitives *)

Module Py.

(** [str.lower()]. Python lowercases a string by the case mapping of the
    Unicode character database, which this development does not transcribe.
    The code compares names only through [a.lower() == b.lower()], so the
    ledger is embedded over an arbitrary lowercasing function, and whatever
    is proved of it holds of Python's. *)
Class Lowercase := lower : string → string.

(** [str.lower()] on the strings that hold ASCII characters only, where it
    changes the letters [A] to [Z] and nothing else. The worked examples
    use it, with ASCII names. *)
Definition lower_ascii (c : ascii) : ascii :=
  let n := nat_of_ascii c in
  if ((65 <=? n)%nat && (n <=? 90)%nat)%bool then ascii_of_nat (n + 32) else c.

Fixpoint lower_ascii_string (s : string) : string :=
  match s with
  | EmptyString => EmptyString
  | String c rest => String (lower_ascii c) (lower_ascii_string rest)
  end.

(** [sum(xs)]: left to right, from [0]. *)
Definition sum (xs : list Q) : Q := fold_left Qplus xs 0.

(** [max(a, b)] and [min(a, b)] on integers. *)
Definition max (a b : Z) : Z := Z.max a b.
Definition min (a b : Z) : Z := Z.min a b.

(** Rounding to the nearest integer, ties to even: the rounding of the
    [.0f] format. *)
Definition round_half_even (x : Q) : Z :=
  let f := Qfloor x in
  let d := x - inject_Z f in
  if Qle_bool d (1 # 2)
  then if Qeq_bool d (1 # 2) then (if Z.even f then f else f + 1)%Z else f
  else (f + 1)%Z.

(** Python floats are IEEE 754 binary64 numbers. A finite float is
    modelled by the rational that it denotes, and an operation on floats by
    the exact operation followed by [round64], the rounding to the nearest
    float, ties to the even significand: 53 bits of significand, and the
    fixed exponent of the subnormal range below [2 ^ -1022]. The exponent is
    not bounded above: a result beyond the largest float, which Python turns
    into [inf], is outside this model, as are [inf] and [nan] themselves. *)

(** The exponent [e] with [2 ^ e <= x < 2 ^ (e + 1)], for a positive [x]. *)
Definition floor_log2 (x : Q) : Z :=
  let e := (Z.log2 (Qnum x) - Z.log2 (Z.pos (Qden x)))%Z in
  if Qle_bool (2 ^ e) x then e else (e - 1)%Z.

Definition round64 (x : Q) : Q :=
  if Qeq_bool x 0 then 0
  else
    let e := Z.max (floor_log2 (Qabs x) - 52) (-1074) in
    let m := round_half_even (Qabs x / 2 ^ e) in
    Qred ((if Qlt_le_dec x 0 then -1 else 1) * inject_Z m * 2 ^ e).

(** [float(x)] of a number or of its decimal text: a float is left as it
    is, anything else is rounded. *)
Definition float (x : Q) : Q := round64 x.

(** [a + b], [a - b], [a * b] and [a / b] on floats. *)
Definition fadd (a b : Q) : Q := round64 (a + b).
Definition fsub (a b : Q) : Q := round64 (a - b).
Definition fmul (a b : Q) : Q := round64 (a * b).
Definition fdiv (a b : Q) : Q := round64 (a / b).

(** [sum(xs)] of a list of at most two floats: from [0], left to right,
    each addition rounded. (From three floats on the versions of Python
    differ: 3.12 and later compensate the rounding errors of the
    additions, which for two floats changes nothing. The code modelled
    with [float_sum] sums slices of two elements.) *)
Definition float_sum (xs : list Q) : Q := fold_left fadd xs 0.

(** [sum(xs)] of a list of floats of any length. How its additions round
    depends on the version of Python, so where such a sum feeds a float
    computation it is left open: what is proved holds of every summation. *)
Class FloatSum := sum_floats : list Q → Q.

Definition digits (n : Z) : string :=
  NilZero.string_of_uint (N.to_uint (Z.to_N (Z.abs n))).

(** [f"{x:.0f}"]. *)
Definition format_0f (x : Q) : string :=
  let d := digits (round_half_even x) in
  if Qlt_le_dec x 0 then "-" ++ d else d.

(** The thousands separator of the [,] format option, applied to a string
    of digits. *)
Fixpoint group_rev (cs : list ascii) (k : nat) : list ascii :=
  match cs with
  | [] => []
  | c :: rest =>
      match k, rest with
      | 2%nat, _ :: _ => c :: ","%char :: group_rev rest 0
      | _, _ => c :: group_rev rest (S k)
      end
  end.

Definition group_thousands (d : string) : string :=
  string_of_list_ascii
    (rev (group_rev (rev (list_ascii_of_string d)) 0)).

(** [f"{x:,.0f}"]. *)
Definition format_comma_0f (x : Q) : string :=
  let d := group_thousands (digits (round_half_even x)) in
  if Qlt_le_dec x 0 then "-" ++ d else d.

(** [min(a, b)] and [max(a, b)] on floats: the first argument unless the
    second is strictly smaller (larger). *)
Definition min_float (a b : Q) : Q := if Qlt_le_dec b a then b else a.
Definition max_float (a b : Q) : Q := if Qlt_le_dec a b then b else a.

End Py.

(** ** The transaction engine ([src/main.py], class [ExpenseTracker]) *)

Module Ledger.

(** [datetime] values and the day that [strftime('%d/%m/%Y')] keeps. *)
Definition datetime := Z.
Definition microseconds_per_day : Z := 86400000000.
Definition strftime_dmy (d : datetime) : Z := (d / microseconds_per_day)%Z.

(** A row of the [transactions] worksheet, in column order. *)
Record TransactionRow := {
  date : Z;
  type : string;
  wallet_type : string;
  amount : Q;
  description : string;
  balance_total : Q;
  balance_wallet : Q;
  category : string;
  merchant : string
}.

(** A row of the [lending] worksheet, in column order. The two return
    columns are empty ([None]) until the loan is closed. *)
Record LendingRow := {
  l_date : Z;
  person : string;
  l_amount : Q;
  status : string;
  l_description : string;
  return_date : option Z;
  return_to : option string;
  remaining : Q
}.

Record ExpenseTracker := {
  transactions_sheet : option (list TransactionRow);
  lending_sheet : option (list LendingRow)
}.

(** [get_current_balances]: the checkpoint of the last row, [(0, 0)] when
    there is none. *)
Definition get_current_balances (self : ExpenseTracker) : Q * Q :=
  match transactions_sheet self with
  | Some records =>
      match last records with
      | Some last_record => (balance_total last_record, balance_wallet last_record)
      | None => (0, 0)
      end
  | None => (0, 0)
  end.

(** [worksheet.append_row], guarded by [if self.transactions_sheet:]. *)
Definition append_transaction (row_data : TransactionRow) (self : ExpenseTracker)
  : ExpenseTracker :=
  match transactions_sheet self with
  | Some rows => {| transactions_sheet := Some (rows ++ [row_data])%list;
                    lending_sheet := lending_sheet self |}
  | None => self
  end.

(** [add_transaction]: returns the new balances and the new state. *)
Definition add_transaction (transaction_type wallet_type : string) (amount : Q)
    (description category merchant : string) (date_override : option datetime)
    (now : datetime) (self : ExpenseTracker) : (Q * Q) * ExpenseTracker :=
  let '(total_balance, wallet_balance) := get_current_balances self in
  let '(total_balance, wallet_balance) :=
    if wallet_type =? "total" then
      if transaction_type =? "add"
      then (total_balance + amount, wallet_balance)
      else (total_balance - amount, wallet_balance)
    else if wallet_type =? "wallet" then
      if transaction_type =? "add"
      then (total_balance, wallet_balance + amount)
      else (total_balance, wallet_balance - amount)
    else (total_balance, wallet_balance) in
  let trans_date := match date_override with Some d => d | None => now end in
  let row_data :=
    {| date := strftime_dmy trans_date;
       type := transaction_type;
       wallet_type := wallet_type;
       amount := amount;
       description := description;
       balance_total := total_balance;
       balance_wallet := wallet_balance;
       category := category;
       merchant := merchant |} in
  ((total_balance, wallet_balance), append_transaction row_data self).

(** [transfer_between_wallets]: returns
    [(success, message, total_balance, wallet_balance)] and the new state. *)
Definition transfer_between_wallets (from_wallet to_wallet : string) (amount : Q)
    (description : string) (now : datetime) (self : ExpenseTracker)
  : (bool * string * Q * Q) * ExpenseTracker :=
  let '(total_balance, wallet_balance) := get_current_balances self in
  let moved : (string + Q * Q) :=
    if (from_wallet =? "total") && (to_wallet =? "wallet") then
      if Qlt_le_dec total_balance amount
      then inl "Insufficient balance in Total Stack"
      else inr (total_balance - amount, wallet_balance + amount)
    else if (from_wallet =? "wallet") && (to_wallet =? "total") then
      if Qlt_le_dec wallet_balance amount
      then inl "Insufficient balance in Wallet"
      else inr (total_balance + amount, wallet_balance - amount)
    else inl "Invalid transfer" in
  match moved with
  | inl message => ((false, message, 0, 0), self)
  | inr (total_balance, wallet_balance) =>
      let row_data :=
        {| date := strftime_dmy now;
           type := "transfer";
           wallet_type := from_wallet ++ "_to_" ++ to_wallet;
           amount := amount;
           description := description;
           balance_total := total_balance;
           balance_wallet := wallet_balance;
           category := "transfer";
           merchant := "" |} in
      ((true, "Transfer successful", total_balance, wallet_balance),
       append_transaction row_data self)
  end.

(** [add_lending]. *)
Definition add_lending (person : string) (amount : Q) (description : string)
    (now : datetime) (self : ExpenseTracker) : ExpenseTracker :=
  let row_data :=
    {| l_date := strftime_dmy now;
       person := person;
       l_amount := amount;
       status := "lent";
       l_description := description;
       return_date := None;
       return_to := None;
       remaining := amount |} in
  match lending_sheet self with
  | Some rows => {| transactions_sheet := transactions_sheet self;
                    lending_sheet := Some (rows ++ [row_data])%list |}
  | None => self
  end.

(** [worksheet.update_cell(row_num, col, value)] for the columns that
    [return_lending] writes: 4 (status), 6 (return_date), 7 (return_to),
    8 (remaining). Sheet row [row_num] is data row [row_num - 2]; a row
    beyond the data is left alone. *)
Definition update_row (row_num : nat) (f : LendingRow → LendingRow)
    (sheet : list LendingRow) : list LendingRow :=
  match sheet !! (row_num - 2)%nat with
  | Some r => <[(row_num - 2)%nat := f r]> sheet
  | None => sheet
  end.

Definition update_status (row_num : nat) (v : string) :=
  update_row row_num (λ r,
    {| l_date := l_date r; person := person r; l_amount := l_amount r;
       status := v; l_description := l_description r;
       return_date := return_date r; return_to := return_to r;
       remaining := remaining r |}).

Definition update_return_date (row_num : nat) (v : Z) :=
  update_row row_num (λ r,
    {| l_date := l_date r; person := person r; l_amount := l_amount r;
       status := status r; l_description := l_description r;
       return_date := Some v; return_to := return_to r;
       remaining := remaining r |}).

Definition update_return_to (row_num : nat) (v : string) :=
  update_row row_num (λ r,
    {| l_date := l_date r; person := person r; l_amount := l_amount r;
       status := status r; l_description := l_description r;
       return_date := return_date r; return_to := Some v;
       remaining := remaining r |}).

Definition update_remaining (row_num : nat) (v : Q) :=
  update_row row_num (λ r,
    {| l_date := l_date r; person := person r; l_amount := l_amount r;
       status := status r; l_description := l_description r;
       return_date := return_date r; return_to := return_to r;
       remaining := v |}).

(** The loop of [return_lending] over [enumerate(records)], from index
    [i] on. [records] is the snapshot read before the loop, [sheet] the
    worksheet the loop writes to; the result is the worksheet and
    [remaining_to_apply] when the loop ends. *)
Fixpoint return_lending_loop `{!Py.Lowercase}
    (person return_to : string) (now : datetime)
    (records : list LendingRow) (i : nat) (remaining_to_apply : Q)
    (sheet : list LendingRow) : list LendingRow * Q :=
  match records with
  | [] => (sheet, remaining_to_apply)
  | record :: rest =>
      if Qle_bool remaining_to_apply 0 then (sheet, remaining_to_apply)
      else if (Py.lower (Ledger.person record) =? Py.lower person)
              && (status record =? "lent") then
        let row_num := (i + 2)%nat in
        let current_remaining := remaining record in
        if Qle_bool current_remaining remaining_to_apply then
          let sheet := update_status row_num "returned" sheet in
          let sheet := update_return_date row_num (strftime_dmy now) sheet in
          let sheet := update_return_to row_num return_to sheet in
          let sheet := update_remaining row_num 0 sheet in
          return_lending_loop person return_to now rest (S i)
            (remaining_to_apply - current_remaining) sheet
        else
          let new_remaining := current_remaining - remaining_to_apply in
          let sheet := update_status row_num "partial" sheet in
          let sheet := update_remaining row_num new_remaining sheet in
          return_lending_loop person return_to now rest (S i) 0 sheet
      else return_lending_loop person return_to now rest (S i)
             remaining_to_apply sheet
  end.

(** The currency sign as the source file spells it. *)
Definition currency : string := "‚Çπ".

(** [return_lending]: returns [(success, message)] and the new state. *)
Definition return_lending `{!Py.Lowercase}
    (person : string) (amount : Q) (return_to : string)
    (now : datetime) (self : ExpenseTracker) : (bool * string) * ExpenseTracker :=
  match lending_sheet self with
  | None => ((false, "Sheets not connected"), self)
  | Some records =>
      let '(sheet, remaining_to_apply) :=
        return_lending_loop person return_to now records 0 amount records in
      let self := {| transactions_sheet := transactions_sheet self;
                     lending_sheet := Some sheet |} in
      if Qlt_le_dec remaining_to_apply amount then
        let applied := amount - remaining_to_apply in
        let '(_, self) :=
          add_transaction "add" return_to applied ("Returned by " ++ person)
            "lending" "" None now self in
        ((true, currency ++ Py.format_comma_0f applied ++ " applied to "
                ++ person ++ "'s loans"), self)
      else ((false, "No pending loans found for " ++ person), self)
  end.

(** [get_pending_lending_for_person]. *)
Definition get_pending_lending_for_person `{!Py.Lowercase} (person : string)
    (self : ExpenseTracker) : Q :=
  match lending_sheet self with
  | None => 0
  | Some records =>
      fold_left (λ total r,
        if (Py.lower (Ledger.person r) =? Py.lower person)
           && ((status r =? "lent") || (status r =? "partial"))
        then total + remaining r else total) records 0
  end.

(** [worksheet.delete_rows(row_num)]: sheet row [row_num] is data row
    [row_num - 2]. *)
Definition delete_rows (row_num : nat) (sheet : list TransactionRow)
  : list TransactionRow :=
  delete (row_num - 2)%nat sheet.

(** [undo_last_transaction]: returns [(success, message)] and the new
    state. *)
Definition undo_last_transaction (self : ExpenseTracker)
  : (bool * string) * ExpenseTracker :=
  match transactions_sheet self with
  | None => ((false, "Sheets not connected"), self)
  | Some records =>
      if (length records <? 1)%nat then ((false, "No transactions to undo"), self)
      else
        let last_row := (length records + 1)%nat in
        ((true, "Last transaction undone successfully"),
         {| transactions_sheet := Some (delete_rows last_row records);
            lending_sheet := lending_sheet self |})
  end.

End Ledger.

(** ** The analytics engine ([src/paylog_ai_python/analytics.py]) *)

Module Analytics.

Definition datetime := Z.
Definition microseconds_per_day : Z := 86400000000.

(** [timedelta(days=n)] and [timedelta(weeks=n)]. *)
Definition timedelta_days (n : Z) : Z := (n * microseconds_per_day)%Z.
Definition timedelta_weeks (n : Z) : Z := (n * 7 * microseconds_per_day)%Z.

(** A transaction as the analytics read it from the store. A field that
    Python converts on use holds the outcome of the conversion:
    [t_date] is the day ordinal that
    [datetime.strptime(str(t['date']), '%d/%m/%Y')] yields, [None] when it
    raises; [t_amount] is [float(t['amount'])], [None] when it raises;
    [t_category] is [None] when the key is absent. *)
Record Transaction := {
  t_date : option Z;
  t_type : string;
  t_amount : option Q;
  t_category : option string
}.

(** The [datetime] of a parsed date: midnight of that day. *)
Definition midnight (day : Z) : datetime := (day * microseconds_per_day)%Z.

(** [t.get('category', 'other')]. *)
Definition get_category (t : Transaction) : string :=
  default "other" (t_category t).

(** [t.get('category', 'other') or 'other']. *)
Definition get_category_or_other (t : Transaction) : string :=
  let c := get_category t in if c =? "" then "other" else c.

(** The list comprehension of [calculate_daily_average]; [None] when an
    element raises. *)
Fixpoint recent_expenses (cutoff_date : datetime) (transactions : list Transaction)
  : option (list Q) :=
  match transactions with
  | [] => Some []
  | t :: rest =>
      if t_type t =? "subtract" then
        d ← t_date t;
        if (cutoff_date <=? midnight d)%Z then
          a ← t_amount t;
          tl ← recent_expenses cutoff_date rest;
          Some (a :: tl)
        else recent_expenses cutoff_date rest
      else recent_expenses cutoff_date rest
  end.

(** [calculate_daily_average]; [None] when an exception leaves it. *)
Definition calculate_daily_average (now : datetime) (transactions : list Transaction)
    (days : Z) : option Q :=
  match transactions with
  | [] => Some 0
  | _ =>
      let cutoff_date := (now - timedelta_days days)%Z in
      xs ← recent_expenses cutoff_date transactions;
      Some (if (0 <? days)%Z then Py.sum xs / inject_Z days else 0)
  end.

(** The list comprehension of [calculate_category_average]. *)
Fixpoint category_expenses (cutoff_date : datetime) (category : string)
    (transactions : list Transaction) : option (list Q) :=
  match transactions with
  | [] => Some []
  | t :: rest =>
      if (t_type t =? "subtract") && (get_category t =? category) then
        d ← t_date t;
        if (cutoff_date <=? midnight d)%Z then
          a ← t_amount t;
          tl ← category_expenses cutoff_date category rest;
          Some (a :: tl)
        else category_expenses cutoff_date category rest
      else category_expenses cutoff_date category rest
  end.

(** [calculate_category_average]. *)
Definition calculate_category_average (now : datetime)
    (transactions : list Transaction) (category : string) (days : Z) : option Q :=
  match transactions with
  | [] => Some 0
  | _ =>
      let cutoff_date := (now - timedelta_days days)%Z in
      xs ← category_expenses cutoff_date category transactions;
      Some (Py.sum xs / inject_Z (Z.max (Z.of_nat (length xs)) 1))
  end.

(** One iteration of the inner loop of [detect_trend]; an exception skips
    the transaction ([except: continue]). The weekly total is a float, and
    [week_total += float(t['amount'])] a float addition ([Py.float] leaves
    an amount that is a float as it is). *)
Definition week_step (week_start week_end : datetime) (category : option string)
    (week_total : Q) (t : Transaction) : Q :=
  match t_date t with
  | None => week_total
  | Some d =>
      let trans_date := midnight d in
      if (week_start <=? trans_date)%Z && (trans_date <? week_end)%Z
         && (t_type t =? "subtract") then
        let t_category := get_category_or_other t in
        if match category with None => true | Some c => t_category =? c end then
          match t_amount t with
          | Some a => Py.fadd week_total (Py.float a)
          | None => week_total
          end
        else week_total
      else week_total
  end.

(** The body of the loop over [range(weeks)]. *)
Definition week_total (now : datetime) (transactions : list Transaction)
    (category : option string) (week_offset : Z) : Q :=
  let week_start := (now - timedelta_weeks (week_offset + 1))%Z in
  let week_end := (now - timedelta_weeks week_offset)%Z in
  fold_left (week_step week_start week_end category) transactions 0.

(** [week_totals[-2:]] and [week_totals[:2]]. *)
Definition last_two (l : list Q) : list Q := drop (length l - 2) l.
Definition first_two (l : list Q) : list Q := take 2 l.

(** The part of [detect_trend] after the loop, on the list [week_totals]
    as the loop built it (most recent week first). The averages and the
    change are computed on floats, operation by operation as the source
    writes them, and it is the float [change] that is compared with 15 and
    -15 and that the [.0f] format rounds. *)
Definition trend_of_week_totals (week_totals : list Q) : string :=
  if (length week_totals <? 2)%nat then "stable"
  else
    let week_totals := rev week_totals in
    let recent_avg :=
      if (2 <=? length week_totals)%nat
      then Py.fdiv (Py.float_sum (last_two week_totals)) 2
      else default 0 (last week_totals) in
    let older_avg :=
      if (2 <=? length week_totals)%nat
      then Py.fdiv (Py.float_sum (first_two week_totals)) 2
      else default 0 (head week_totals) in
    if Qeq_bool older_avg 0 then
      (if Qlt_le_dec 0 recent_avg then "increasing" else "stable")
    else
      let change :=
        Py.fmul (Py.fdiv (Py.fsub recent_avg older_avg) older_avg) 100 in
      if Qlt_le_dec 15 change then
        "increasing " ++ Py.format_0f (Qabs change) ++ "%"
      else if Qlt_le_dec change (-15) then
        "decreasing " ++ Py.format_0f (Qabs change) ++ "%"
      else "stable".

(** [detect_trend]. *)
Definition detect_trend (now : datetime) (transactions : list Transaction)
    (category : option string) (weeks : Z) : string :=
  if (length transactions <? 2)%nat then "Not enough data"
  else
    let week_totals :=
      (λ k, week_total now transactions category (Z.of_nat k))
        <$> seq 0 (Z.to_nat weeks) in
    trend_of_week_totals week_totals.







(** One iteration of the loop of [get_category_totals] and of
    [get_category_breakdown]. Unlike [analyze_budget], these read
    [amount = float(t['amount'])] before they touch the dictionary, so a
    debit whose amount cannot be read leaves no key behind. *)
Definition totals_step (cutoff_date : datetime) (category_totals : gmap string Q)
    (t : Transaction) : gmap string Q :=
  if t_type t =? "subtract" then
    match t_date t with
    | None => category_totals
    | Some d =>
        if (cutoff_date <=? midnight d)%Z then
          let category := get_category_or_other t in
          match t_amount t with
          | Some amount =>
              <[category := default 0 (category_totals !! category) + amount]>
                category_totals
          | None => category_totals
          end
        else category_totals
    end
  else category_totals.

(** [get_category_totals]. *)
Definition get_category_totals (now : datetime) (transactions : list Transaction)
    (period_days : Z) : gmap string Q :=
  let cutoff_date := (now - timedelta_days period_days)%Z in
  fold_left (totals_step cutoff_date) transactions ∅.


(** One iteration of the loop of [get_income_expense_summary], on the pair
    [(income, expenses)]; an exception skips the transaction. *)
Definition summary_step (cutoff_date : datetime) (acc : Q * Q) (t : Transaction)
  : Q * Q :=
  match t_date t with
  | None => acc
  | Some d =>
      if (cutoff_date <=? midnight d)%Z then
        match t_amount t with
        | None => acc
        | Some amount =>
            if t_type t =? "add" then (acc.1 + amount, acc.2)
            else if t_type t =? "subtract" then (acc.1, acc.2 + amount)
            else acc
        end
      else acc
  end.

Record IncomeExpenseSummary := {
  s_income : Q;
  s_expenses : Q;
  s_savings : Q;
  s_savings_rate : Q;
  s_period_days : Z
}.

(** [get_income_expense_summary]. *)
Definition get_income_expense_summary (now : datetime)
    (transactions : list Transaction) (period_days : Z) : IncomeExpenseSummary :=
  let cutoff_date := (now - timedelta_days period_days)%Z in
  let acc := fold_left (summary_step cutoff_date) transactions (0, 0) in
  let income := acc.1 in
  let expenses := acc.2 in
  let savings := income - expenses in
  let savings_rate := if Qlt_le_dec 0 income then savings / income * 100 else 0 in
  {| s_income := income; s_expenses := expenses; s_savings := savings;
     s_savings_rate := savings_rate; s_period_days := period_days |}.

(** What [datetime.strptime(deadline, '%Y-%m-%d')] makes of
    [goal.get('deadline')]: no deadline ([None] or an empty string), a
    string that does not parse, or a day. *)
Inductive Deadline :=
| NoDeadline
| BadDeadline
| DeadlineDay (day : Z).

(** A goal as [calculate_goal_progress] reads it; a key that is absent is
    [None]. *)
Record Goal := {
  g_target : option Q;
  g_type : option string;
  g_description : option string;
  g_deadline : Deadline;
  g_current : option Q
}.

Record GoalProgress := {
  p_description : string;
  p_type : string;
  p_target : Q;
  p_current : Q;
  p_progress : Q;
  p_remaining : Q;
  p_days_remaining : option Z;
  p_on_track : bool;
  p_completed : bool
}.

(** The generator of the [spending_limit] branch; [None] when [float]
    raises. *)
Fixpoint all_debits (transactions : list Transaction) : option (list Q) :=
  match transactions with
  | [] => Some []
  | t :: rest =>
      if t_type t =? "subtract" then
        a ← t_amount t;
        tl ← all_debits rest;
        Some (a :: tl)
      else all_debits rest
  end.

(** The body of the loop of [calculate_goal_progress] for a goal with a
    positive target. The progress, the remaining amount and the two sides
    of the [on_track] comparison are floats, computed operation by
    operation as the source writes them. *)
Definition goal_progress `{!Py.FloatSum} (now : datetime) (current_savings : Q)
    (transactions : option (list Transaction)) (goal : Goal) (target : Q)
  : option GoalProgress :=
  let goal_type := default "savings" (g_type goal) in
  let description := default "Goal" (g_description goal) in
  current ←
    (if goal_type =? "savings" then Some current_savings
     else if (goal_type =? "spending_limit")
             && match transactions with Some (_ :: _) => true | _ => false end
     then xs ← all_debits (default [] transactions); Some (Py.sum_floats xs)
     else Some (default 0 (g_current goal)));
  let progress :=
    if Qlt_le_dec 0 target then Py.fmul (Py.fdiv current target) 100 else 0 in
  let remaining := Py.fsub target current in
  let '(days_remaining, on_track) :=
    match g_deadline goal with
    | DeadlineDay day =>
        let days_remaining := ((midnight day - now) / microseconds_per_day)%Z in
        if (0 <? days_remaining)%Z && (goal_type =? "savings") then
          (Some days_remaining,
           if (days_remaining <? 30)%Z
           then Qle_bool
                  (Py.fsub 100
                     (Py.fmul (Py.fdiv (inject_Z days_remaining) 30) 100))
                  progress
           else true)
        else (Some days_remaining, true)
    | _ => (None, true)
    end in
  Some {| p_description := description; p_type := goal_type; p_target := target;
          p_current := current; p_progress := Py.min_float progress 100;
          p_remaining := Py.max_float remaining 0;
          p_days_remaining := days_remaining; p_on_track := on_track;
          p_completed := Qle_bool 100 progress |}.

(** [calculate_goal_progress]; [None] when an exception leaves it. *)
Fixpoint calculate_goal_progress `{!Py.FloatSum} (now : datetime)
    (goals : list Goal) (current_savings : Q)
    (transactions : option (list Transaction))
  : option (list GoalProgress) :=
  match goals with
  | [] => Some []
  | goal :: rest =>
      let target := default 0 (g_target goal) in
      if Qle_bool target 0 then
        calculate_goal_progress now rest current_savings transactions
      else
        r ← goal_progress now current_savings transactions goal target;
        tl ← calculate_goal_progress now rest current_savings transactions;
        Some (r :: tl)
  end.


End Analytics.

(** ** The scoring functions of [src/ai_service.py] *)

Module AIService.

(** The result of [check_budget_status], without its message text. *)
Inductive BudgetStatus :=
| NoBudget
| Checked (status : string) (percentage spent budget remaining : Q).

(** [check_budget_status]. *)
Definition check_budget_status (spent budget : Q) : BudgetStatus :=
  if Qle_bool budget 0 then NoBudget
  else
    let percentage := (spent / budget) * 100 in
    let remaining := budget - spent in
    let status :=
      if Qle_bool 100 percentage then "exceeded"
      else if Qle_bool 90 percentage then "critical"
      else if Qle_bool 80 percentage then "warning"
      else if Qle_bool 50 percentage then "moderate"
      else "good" in
    Checked status percentage spent budget remaining.

(** A goal of the [goals] list; a key that is absent is [None]. *)
Record Goal := {
  completed : option bool;
  progress : option Q
}.

(** The [data] dictionary of [calculate_financial_health_score]; a key
    that is absent is [None]. *)
Record HealthData := {
  income : option Q;
  expenses : option Q;
  budget : option Q;
  trend : option string;
  savings : option Q;
  goals : option (list Goal)
}.

(** The result: the score, the grade and, of each factor, its name and its
    points (the explanatory text, the message and the timestamp are left
    out). *)
Record HealthScore := {
  score : Z;
  grade : string;
  factors : list (string * string)
}.

Definition savings_factor (income expenses : Q) : option (Z * string) :=
  if Qlt_le_dec 0 income then
    let savings_rate := ((income - expenses) / income) * 100 in
    if Qle_bool 30 savings_rate then Some (25%Z, "+25")
    else if Qle_bool 20 savings_rate then Some (20%Z, "+20")
    else if Qle_bool 10 savings_rate then Some (10%Z, "+10")
    else if Qle_bool 0 savings_rate then Some (5%Z, "+5")
    else Some ((-10)%Z, "-10")
  else None.

Definition budget_factor (budget expenses : Q) : option (Z * string) :=
  if Qlt_le_dec 0 budget then
    let budget_usage := (expenses / budget) * 100 in
    if Qle_bool budget_usage 80 then Some (20%Z, "+20")
    else if Qle_bool budget_usage 100 then Some (10%Z, "+10")
    else Some ((-15)%Z, "-15")
  else None.

Definition trend_factor (trend : string) : Z * string :=
  if trend =? "decreasing" then (15%Z, "+15")
  else if trend =? "stable" then (10%Z, "+10")
  else ((-5)%Z, "-5").

Definition emergency_factor (savings expenses : Q) : Z * string :=
  let monthly_expenses := if Qlt_le_dec 0 expenses then expenses else 30000 in
  let months_covered :=
    if Qlt_le_dec 0 monthly_expenses then savings / monthly_expenses else 0 in
  if Qle_bool 6 months_covered then (15%Z, "+15")
  else if Qle_bool 3 months_covered then (10%Z, "+10")
  else if Qle_bool 1 months_covered then (5%Z, "+5")
  else ((-5)%Z, "-5").

Definition goals_factor (goals : list Goal) : option (Z * string) :=
  let active_goals := filter (λ g, default false (completed g) = false) goals in
  match active_goals with
  | [] => None
  | _ =>
      let goal_progress :=
        Py.sum ((λ g, default 0 (progress g)) <$> active_goals)
        / inject_Z (Z.of_nat (length active_goals)) in
      if Qle_bool 75 goal_progress then Some (10%Z, "+10")
      else if Qle_bool 50 goal_progress then Some (5%Z, "+5")
      else Some (0%Z, "0")
  end.

(** [score += points; factors.append((name, text, ...))] for a factor that
    applies. *)
Definition apply_factor (name : string) (f : option (Z * string))
    (acc : Z * list (string * string)) : Z * list (string * string) :=
  match f with
  | Some (points, text) => ((acc.1 + points)%Z, (acc.2 ++ [(name, text)])%list)
  | None => acc
  end.

(** The first part of [calculate_financial_health_score]: the score and
    the factors before the clamp, from the base score of 50. *)
Definition health_factors (data : HealthData) : Z * list (string * string) :=
  let acc := (50%Z, []) in
  let income := default 0 (AIService.income data) in
  let expenses := default 0 (AIService.expenses data) in
  let acc := apply_factor "Savings Rate" (savings_factor income expenses) acc in
  let budget := default 0 (AIService.budget data) in
  let acc := apply_factor "Budget" (budget_factor budget expenses) acc in
  let trend := default "stable" (AIService.trend data) in
  let acc := apply_factor "Trend" (Some (trend_factor trend)) acc in
  let savings := default 0 (AIService.savings data) in
  let acc := apply_factor "Emergency Fund" (Some (emergency_factor savings expenses)) acc in
  let goals := default [] (AIService.goals data) in
  apply_factor "Goals" (goals_factor goals) acc.

(** [calculate_financial_health_score]: the clamp and the grade. *)
Definition calculate_financial_health_score (data : HealthData) : HealthScore :=
  let acc := health_factors data in
  let score := Py.max 0 (Py.min 100 acc.1) in
  let grade :=
    if (80 <=? score)%Z then "A"
    else if (60 <=? score)%Z then "B"
    else if (40 <=? score)%Z then "C"
    else "D" in
  {| score := score; grade := grade; factors := acc.2 |}.

End AIService.

(** ** Specification-side definitions for the ledger *)

Module LedgerSpec.
Import Ledger.

(** A tracker whose two worksheets are connected and hold no rows. *)
Definition empty_tracker : ExpenseTracker :=
  {| transactions_sheet := Some []; lending_sheet := Some [] |}.

(** The checkpoint columns of the last row of a ledger. *)
Definition checkpoint (rows : list TransactionRow) : Q * Q :=
  match last rows with
  | Some r => (balance_total r, balance_wallet r)
  | None => (0, 0)
  end.

(** The signed delta of a row, in the words of the specification: [add]
    increases the named wallet, [subtract] decreases it, a transfer moves
    the amount from the first wallet of its tag to the second. *)
Definition signed_delta (r : TransactionRow) (b : Q * Q) : Q * Q :=
  if type r =? "add" then
    if wallet_type r =? "total" then (b.1 + amount r, b.2)
    else if wallet_type r =? "wallet" then (b.1, b.2 + amount r)
    else b
  else if type r =? "subtract" then
    if wallet_type r =? "total" then (b.1 - amount r, b.2)
    else if wallet_type r =? "wallet" then (b.1, b.2 - amount r)
    else b
  else if type r =? "transfer" then
    if wallet_type r =? "total_to_wallet" then (b.1 - amount r, b.2 + amount r)
    else if wallet_type r =? "wallet_to_total" then (b.1 + amount r, b.2 - amount r)
    else b
  else b.

(** Folding the deltas over the rows, in order, from [(0, 0)]. *)
Definition replay (rows : list TransactionRow) : Q * Q :=
  fold_left (λ b r, signed_delta r b) rows (0, 0).

(** A call of one of the two balance-changing operations. *)
Inductive call :=
| RecordTransaction (transaction_type wallet_type : string) (amount : Q)
    (description category merchant : string) (date_override : option datetime)
    (now : datetime)
| TransferBetweenWallets (from_wallet to_wallet : string) (amount : Q)
    (description : string) (now : datetime).

Definition step (self : ExpenseTracker) (c : call) : ExpenseTracker :=
  match c with
  | RecordTransaction transaction_type wallet_type amount description category
      merchant date_override now =>
      (add_transaction transaction_type wallet_type amount description category
         merchant date_override now self).2
  | TransferBetweenWallets from_wallet to_wallet amount description now =>
      (transfer_between_wallets from_wallet to_wallet amount description now self).2
  end.

Definition run (calls : list call) (self : ExpenseTracker) : ExpenseTracker :=
  fold_left step calls self.

(** The kinds of [recordTransaction]: a credit or a debit. *)
Definition kind_ok (c : call) : Prop :=
  match c with
  | RecordTransaction transaction_type _ _ _ _ _ _ _ =>
      transaction_type = "add" ∨ transaction_type = "subtract"
  | TransferBetweenWallets _ _ _ _ _ => True
  end.

(** Every prefix of the ledger replays to its own checkpoint. *)
Definition replay_consistent (rows : list TransactionRow) : Prop :=
  ∀ n : nat, replay (take n rows) = checkpoint (take n rows).

(** The rows of one person, names compared as [return_lending] and
    [get_pending_lending_for_person] compare them. *)
Definition rows_of `{!Py.Lowercase}
    (p : string) (rows : list LendingRow) : list LendingRow :=
  filter (λ r, Py.lower (person r) = Py.lower p) rows.



(** A call of one of the two lending operations, for a person that the
    context fixes. *)
Inductive loan_call :=
| RecordLoan (amount : Q) (description : string) (now : datetime)
| ApplyRepayment (amount : Q) (return_to : string) (now : datetime).

Definition loan_step `{!Py.Lowercase}
    (p : string) (self : ExpenseTracker) (c : loan_call)
  : ExpenseTracker :=
  match c with
  | RecordLoan amount description now => add_lending p amount description now self
  | ApplyRepayment amount return_to now =>
      (return_lending p amount return_to now self).2
  end.

Definition loan_run `{!Py.Lowercase}
    (p : string) (calls : list loan_call) (self : ExpenseTracker)
  : ExpenseTracker :=
  fold_left (loan_step p) calls self.

(** The precondition of [recordLoan]: a positive amount. *)
Definition loan_ok (c : loan_call) : Prop :=
  match c with
  | RecordLoan amount _ _ => 0 < amount
  | ApplyRepayment _ _ _ => True
  end.


(** How a call may change a row. *)
Definition row_evolves (r r' : LendingRow) : Prop :=
  person r' = person r ∧ l_amount r' = l_amount r
  ∧ (0 <= remaining r → 0 <= remaining r' ∧ remaining r' <= remaining r)
  ∧ (status r ≠ "lent" → r' = r).


(** The row that the four [update_cell] calls of a full payment leave, and
    the row that the two calls of a partial payment leave. *)
Definition closed_row (return_to : string) (now : datetime) (r : LendingRow)
  : LendingRow :=
  {| l_date := l_date r; person := person r; l_amount := l_amount r;
     status := "returned"; l_description := l_description r;
     return_date := Some (strftime_dmy now); return_to := Some return_to;
     remaining := 0 |}.

Definition partial_row (new_remaining : Q) (r : LendingRow) : LendingRow :=
  {| l_date := l_date r; person := person r; l_amount := l_amount r;
     status := "partial"; l_description := l_description r;
     return_date := return_date r; return_to := Ledger.return_to r;
     remaining := new_remaining |}.

(** The loop of [return_lending] as a function of the rows it has still to
    visit: the rows as the loop leaves them, and what is left of the
    pool. [return_lending_loop] is proved below to compute it. *)
Fixpoint allocate `{!Py.Lowercase} (p return_to : string) (now : datetime)
    (records : list LendingRow) (pool : Q) : list LendingRow * Q :=
  match records with
  | [] => ([], pool)
  | record :: rest =>
      if Qle_bool pool 0 then (record :: rest, pool)
      else if (Py.lower (person record) =? Py.lower p)
              && (status record =? "lent") then
        if Qle_bool (remaining record) pool then
          let res := allocate p return_to now rest (pool - remaining record) in
          (closed_row return_to now record :: res.1, res.2)
        else
          let res := allocate p return_to now rest 0 in
          (partial_row (remaining record - pool) record :: res.1, res.2)
      else
        let res := allocate p return_to now rest pool in
        (record :: res.1, res.2)
  end.

(** A balance-changing call or an undo. *)
Inductive ledger_op :=
| Call (c : call)
| Undo.

Definition op_step (self : ExpenseTracker) (o : ledger_op) : ExpenseTracker :=
  match o with
  | Call c => step self c
  | Undo => (undo_last_transaction self).2
  end.

Definition op_run (ops : list ledger_op) (self : ExpenseTracker) : ExpenseTracker :=
  fold_left op_step ops self.

Definition op_ok (o : ledger_op) : Prop :=
  match o with
  | Call c => kind_ok c
  | Undo => True
  end.

(** The rows that a repayment for [p] can pay: those of the person that
    are in [lent] status. *)
Definition lent_rows `{!Py.Lowercase}
    (p : string) (rows : list LendingRow) : list LendingRow :=
  filter (λ r, Py.lower (person r) = Py.lower p ∧ status r = "lent") rows.

(** What these rows still owe. *)
Definition lent_outstanding `{!Py.Lowercase}
    (p : string) (rows : list LendingRow) : Q :=
  Py.sum (remaining <$> lent_rows p rows).

(** Every row of the person in [lent] status still owes something. *)
Definition lent_positive `{!Py.Lowercase}
    (p : string) (rows : list LendingRow) : Prop :=
  Forall (λ r, Py.lower (person r) = Py.lower p → status r = "lent" →
               0 < remaining r) rows.

(** The status of a row of the person agrees with what it owes: [lent]
    with the whole amount, [partial] with a part of it, [returned] with
    nothing and with the two return columns filled. *)
Definition row_coherent `{!Py.Lowercase} (p : string) (r : LendingRow) : Prop :=
  Py.lower (person r) = Py.lower p →
  (status r = "lent" ∧ remaining r == l_amount r ∧ 0 < l_amount r)
  ∨ (status r = "partial" ∧ 0 < remaining r ∧ remaining r < l_amount r)
  ∨ (status r = "returned" ∧ remaining r == 0
     ∧ is_Some (return_date r) ∧ is_Some (Ledger.return_to r)).


End LedgerSpec.

(** ** Specification-side definitions for the analytics *)

Module AnalyticsSpec.
Import Analytics.

(** A transaction whose date and amount Python can read. *)
Definition well_formed (t : Transaction) : Prop :=
  is_Some (t_date t) ∧ is_Some (t_amount t).

(** A debit. *)
Definition is_debit (t : Transaction) : bool := t_type t =? "subtract".

(** Dated within the trailing window of [days] days. *)
Definition in_window (now : datetime) (days : Z) (t : Transaction) : bool :=
  match t_date t with
  | Some d => (now - timedelta_days days <=? midnight d)%Z
  | None => false
  end.

(** The amounts of the debits in the window, in ledger order. *)
Definition window_debits (now : datetime) (days : Z)
    (transactions : list Transaction) : list Q :=
  omap (λ t, if is_debit t && in_window now days t then t_amount t else None)
    transactions.

(** The amounts of the debits of a category in the window (the category
    of a transaction without one is [other]). *)
Definition category_window_debits (now : datetime) (days : Z) (category : string)
    (transactions : list Transaction) : list Q :=
  omap (λ t, if is_debit t && (get_category t =? category) && in_window now days t
             then t_amount t else None)
    transactions.



(** A credit, and the amounts of the credits in the window. *)
Definition is_credit (t : Transaction) : bool := t_type t =? "add".

Definition window_credits (now : datetime) (days : Z)
    (transactions : list Transaction) : list Q :=
  omap (λ t, if is_credit t && in_window now days t then t_amount t else None)
    transactions.

(** The bands of the budget status as the specification lists them. *)
Definition claimed_budget_status (percentage : Q) : string :=
  if Qle_bool 100 percentage then "exceeded"
  else if Qle_bool 90 percentage then "critical"
  else if Qle_bool 80 percentage then "warning"
  else if Qle_bool 50 percentage then "moderate"
  else "good".

(** The answers that the specification lists for [detect_trend]. *)
Definition claimed_trend_answer (s : string) : Prop :=
  s = "Not enough data" ∨ s = "stable"
  ∨ (∃ x, s = "increasing " ++ x ++ "%")
  ∨ (∃ x, s = "decreasing " ++ x ++ "%").

(** Sample data: debits of category [food]; a clock at day 100. *)
Definition debit (day : Z) (amount : Q) : Transaction :=
  {| t_date := Some day; t_type := "subtract"; t_amount := Some amount;
     t_category := Some "food" |}.

Definition sample_now : datetime := (100 * microseconds_per_day + 5000)%Z.

End AnalyticsSpec.

(** * Properties *)

Section LedgerFacts.
Import Ledger LedgerSpec.

Lemma append_transaction_connected row self rows :
  transactions_sheet self = Some rows →
  append_transaction row self =
    {| transactions_sheet := Some (rows ++ [row])%list;
       lending_sheet := lending_sheet self |}.
Proof. intros H. unfold append_transaction. by rewrite H. Qed.

Lemma get_current_balances_checkpoint self rows :
  transactions_sheet self = Some rows →
  get_current_balances self = checkpoint rows.
Proof. intros H. unfold get_current_balances, checkpoint. by rewrite H. Qed.

Lemma checkpoint_snoc rows r :
  checkpoint (rows ++ [r])%list = (balance_total r, balance_wallet r).
Proof. unfold checkpoint. by rewrite last_snoc. Qed.

Lemma replay_snoc rows r :
  replay (rows ++ [r])%list = signed_delta r (replay rows).
Proof. unfold replay. by rewrite fold_left_app. Qed.

Lemma replay_consistent_nil : replay_consistent [].
Proof. intros n. by rewrite take_nil. Qed.

Lemma replay_consistent_whole rows :
  replay_consistent rows → replay rows = checkpoint rows.
Proof.
  intros H. specialize (H (length rows)). by rewrite firstn_all in H.
Qed.

Lemma replay_consistent_snoc rows r :
  replay_consistent rows →
  signed_delta r (checkpoint rows) = (balance_total r, balance_wallet r) →
  replay_consistent (rows ++ [r])%list.
Proof.
  intros Hrows Hr n.
  destruct (decide (n ≤ length rows)%nat) as [Hle | Hgt].
  - rewrite take_app_le by done. apply Hrows.
  - rewrite take_ge by (rewrite length_app; simpl; lia).
    rewrite replay_snoc, checkpoint_snoc, <- Hr.
    by rewrite (replay_consistent_whole rows Hrows).
Qed.

End LedgerFacts.

Section TransactionFacts.
Import Ledger LedgerSpec.

(** C10. [add_transaction] with a wallet type other than [total] and
    [wallet] still appends a row, whose two checkpoints are those of the
    previous row, and returns the balances it found: the amount reaches
    neither balance. *)
Theorem C10_unknown_wallet_type_dropped
    (transaction_type wallet_type : string) (amount : Q)
    (description category merchant : string) (date_override : option datetime)
    (now : datetime) (self : ExpenseTracker) (rows : list TransactionRow) :
  wallet_type ≠ "total" → wallet_type ≠ "wallet" →
  transactions_sheet self = Some rows →
  ∃ row,
    add_transaction transaction_type wallet_type amount description category
      merchant date_override now self
    = (get_current_balances self,
       {| transactions_sheet := Some (rows ++ [row])%list;
          lending_sheet := lending_sheet self |})
    ∧ (balance_total row, balance_wallet row) = get_current_balances self
    ∧ Ledger.amount row = amount
    ∧ Ledger.wallet_type row = wallet_type
    ∧ type row = transaction_type.
Proof.
  intros Ht Hw Hrows. unfold add_transaction.
  destruct (get_current_balances self) as [total_balance wallet_balance].
  apply String.eqb_neq in Ht, Hw. rewrite Ht, Hw.
  eexists. split.
  - by rewrite (append_transaction_connected _ _ _ Hrows).
  - done.
Qed.

Lemma C10_witness :
  ∃ row,
    add_transaction "subtract" "total_to_wallet" 50 "typo" "food" "" None 0%Z
      {| transactions_sheet := Some []; lending_sheet := None |}
    = (get_current_balances {| transactions_sheet := Some []; lending_sheet := None |},
       {| transactions_sheet := Some ([] ++ [row])%list; lending_sheet := None |})
    ∧ (balance_total row, balance_wallet row)
      = get_current_balances {| transactions_sheet := Some []; lending_sheet := None |}
    ∧ Ledger.amount row = 50
    ∧ Ledger.wallet_type row = "total_to_wallet"
    ∧ type row = "subtract".
Proof.
  apply (C10_unknown_wallet_type_dropped "subtract" "total_to_wallet" 50 "typo" "food"
           "" None 0%Z {| transactions_sheet := Some []; lending_sheet := None |} []);
    [discriminate | discriminate | reflexivity].
Defined.

(** C4. [transfer_between_wallets] fails when the source wallet holds less
    than the amount and when the direction is not one of the two valid
    ones; a failure leaves the tracker, and so both balances, as they
    were; a success appends exactly one row, tagged with the direction
    and with category [transfer]. *)
Theorem C4_transfer_guard (from_wallet to_wallet : string) (amount : Q)
    (description : string) (now : datetime) (self : ExpenseTracker) :
  let r := transfer_between_wallets from_wallet to_wallet amount description now self in
  let success := r.1.1.1.1 in
  let message := r.1.1.1.2 in
  (from_wallet = "total" → to_wallet = "wallet" →
   (get_current_balances self).1 < amount →
   success = false ∧ message = "Insufficient balance in Total Stack")
  ∧ (from_wallet = "wallet" → to_wallet = "total" →
     (get_current_balances self).2 < amount →
     success = false ∧ message = "Insufficient balance in Wallet")
  ∧ (from_wallet = to_wallet
     ∨ (from_wallet ≠ "total" ∧ from_wallet ≠ "wallet")
     ∨ (to_wallet ≠ "total" ∧ to_wallet ≠ "wallet") →
     success = false ∧ message = "Invalid transfer")
  ∧ (success = false →
     r.2 = self ∧ get_current_balances r.2 = get_current_balances self)
  ∧ (success = true →
     ∀ rows, transactions_sheet self = Some rows →
     ∃ row,
       r.2 = {| transactions_sheet := Some (rows ++ [row])%list;
                lending_sheet := lending_sheet self |}
       ∧ wallet_type row = from_wallet ++ "_to_" ++ to_wallet
       ∧ category row = "transfer"
       ∧ type row = "transfer"
       ∧ Ledger.amount row = amount)
  ∧ (0 < amount → success = true → is_Some (transactions_sheet self)).
Proof.
  assert (transactions_sheet self = None → get_current_balances self = (0, 0))
    as Hnone.
  { intros Hn. unfold get_current_balances. by rewrite Hn. }
  unfold transfer_between_wallets.
  destruct (get_current_balances self) as [total_balance wallet_balance] eqn:Hb; simpl.
  destruct (String.eqb_spec from_wallet "total") as [Hft | Hft];
    destruct (String.eqb_spec to_wallet "wallet") as [Htw | Htw];
    destruct (String.eqb_spec from_wallet "wallet") as [Hfw | Hfw];
    destruct (String.eqb_spec to_wallet "total") as [Htt | Htt];
    subst; try discriminate; simpl;
    repeat match goal with
           | |- context [Qlt_le_dec ?a ?b] => destruct (Qlt_le_dec a b); simpl
           end;
    repeat split; intros; try done; try lra;
    try (exfalso; intuition congruence);
    try (eexists; split;
         [by erewrite append_transaction_connected | done]);
    (destruct (transactions_sheet self) eqn:Hsheet; [by eexists |];
     specialize (Hnone eq_refl); injection Hnone as -> ->; lra).
Qed.

Lemma C4_witness :
  (transfer_between_wallets "wallet" "total" 1 "Transfer" 0%Z empty_tracker).1.1.1.1
    = false
  ∧ (transfer_between_wallets "wallet" "total" 1 "Transfer" 0%Z empty_tracker).1.1.1.2
    = "Insufficient balance in Wallet".
Proof.
  destruct (C4_transfer_guard "wallet" "total" 1 "Transfer" 0%Z empty_tracker)
    as (_ & H & _).
  apply H; [reflexivity | reflexivity | vm_compute; reflexivity].
Defined.

(** The row that a call appends carries the checkpoint that its own delta
    gives from the previous checkpoint. *)
Lemma step_replay_consistent (c : call) (self : ExpenseTracker) rows :
  kind_ok c →
  transactions_sheet self = Some rows →
  replay_consistent rows →
  ∃ rows', transactions_sheet (step self c) = Some rows'
           ∧ replay_consistent rows'.
Proof.
  intros Hk Hrows Hcons.
  destruct c as [transaction_type wallet_type amount description category merchant
                   date_override now
                | from_wallet to_wallet amount description now]; simpl.
  - unfold add_transaction.
    rewrite (get_current_balances_checkpoint _ _ Hrows).
    destruct (checkpoint rows) as [total_balance wallet_balance] eqn:Hcp.
    destruct (String.eqb_spec wallet_type "total") as [-> | Hwt];
      [| destruct (String.eqb_spec wallet_type "wallet") as [-> | Hww]];
      destruct Hk as [-> | ->]; simpl;
      match goal with
      | |- context [append_transaction ?row self] =>
          rewrite (append_transaction_connected row _ _ Hrows)
      end;
      (eexists; split; [reflexivity |]);
      apply replay_consistent_snoc; try done;
      rewrite Hcp; unfold signed_delta; simpl;
      rewrite ?(proj2 (String.eqb_neq _ _) Hwt), ?(proj2 (String.eqb_neq _ _) Hww);
      reflexivity.
  - unfold transfer_between_wallets.
    rewrite (get_current_balances_checkpoint _ _ Hrows).
    destruct (checkpoint rows) as [total_balance wallet_balance] eqn:Hcp.
    destruct (String.eqb_spec from_wallet "total") as [Hft | Hft];
      destruct (String.eqb_spec to_wallet "wallet") as [Htw | Htw];
      destruct (String.eqb_spec from_wallet "wallet") as [Hfw | Hfw];
      destruct (String.eqb_spec to_wallet "total") as [Htt | Htt];
      subst; try discriminate; simpl;
      repeat match goal with
             | |- context [Qlt_le_dec ?a ?b] => destruct (Qlt_le_dec a b); simpl
             end;
      try (by exists rows);
      match goal with
      | |- context [append_transaction ?row self] =>
          rewrite (append_transaction_connected row _ _ Hrows)
      end;
      (eexists; split; [reflexivity |]);
      apply replay_consistent_snoc; try done;
      rewrite Hcp; reflexivity.
Qed.

Lemma run_replay_consistent (calls : list call) (self : ExpenseTracker) rows :
  Forall kind_ok calls →
  transactions_sheet self = Some rows →
  replay_consistent rows →
  ∃ rows', transactions_sheet (run calls self) = Some rows'
           ∧ replay_consistent rows'.
Proof.
  intros Hk. revert self rows.
  induction Hk as [| c calls Hc _ IH]; intros self rows Hrows Hcons; simpl.
  - by exists rows.
  - destruct (step_replay_consistent c self rows Hc Hrows Hcons)
      as (rows1 & Hrows1 & Hcons1).
    by apply (IH _ rows1).
Qed.

(** C2. After any sequence of [add_transaction] (with kind [add] or
    [subtract]) and [transfer_between_wallets] calls on an empty ledger,
    folding the signed deltas of the rows from [(0, 0)] gives the
    checkpoint of the last row, which is the current balance, and the
    same holds of every prefix of the ledger. *)
Theorem C2_balance_replay (calls : list call) (lending : option (list LendingRow)) :
  Forall kind_ok calls →
  ∃ rows,
    let final :=
      run calls {| transactions_sheet := Some []; lending_sheet := lending |} in
    transactions_sheet final = Some rows
    ∧ replay rows = checkpoint rows
    ∧ replay rows = get_current_balances final
    ∧ ∀ n : nat, replay (take n rows) = checkpoint (take n rows).
Proof.
  intros Hk.
  destruct (run_replay_consistent calls
              {| transactions_sheet := Some []; lending_sheet := lending |} []
              Hk eq_refl replay_consistent_nil) as (rows & Hrows & Hcons).
  exists rows. simpl. repeat split; try done.
  - by apply replay_consistent_whole.
  - rewrite (get_current_balances_checkpoint _ _ Hrows).
    by apply replay_consistent_whole.
Qed.

Lemma C2_witness :
  ∃ rows,
    let final :=
      run [RecordTransaction "add" "total" 100 "salary" "income" "" None 0%Z;
           TransferBetweenWallets "total" "wallet" 40 "Transfer" 0%Z;
           RecordTransaction "subtract" "wallet" 15 "lunch" "food" "cafe" None 0%Z]
        {| transactions_sheet := Some []; lending_sheet := None |} in
    transactions_sheet final = Some rows
    ∧ replay rows = checkpoint rows
    ∧ replay rows = get_current_balances final
    ∧ ∀ n : nat, replay (take n rows) = checkpoint (take n rows).
Proof.
  apply (C2_balance_replay
           [RecordTransaction "add" "total" 100 "salary" "income" "" None 0%Z;
            TransferBetweenWallets "total" "wallet" 40 "Transfer" 0%Z;
            RecordTransaction "subtract" "wallet" 15 "lunch" "food" "cafe" None 0%Z]
           None).
  repeat (constructor;
          [first [exact I | left; reflexivity | right; reflexivity] |]).
  constructor.
Defined.

(** The kinds matter to the replay: a row that [add_transaction] is asked
    to write with kind [transfer] and a direction tag reads as a transfer
    but carries the previous checkpoint. *)
Example replay_needs_credit_or_debit :
  let final :=
    run [RecordTransaction "add" "total" 100 "salary" "income" "" None 0%Z;
         RecordTransaction "transfer" "total_to_wallet" 50 "Transfer" "transfer" ""
           None 0%Z]
      empty_tracker in
  get_current_balances final = (100, 0)
  ∧ replay (default [] (transactions_sheet final)) = (50, 50).
Proof. split; vm_compute; reflexivity. Qed.

End TransactionFacts.

Section LendingFacts.
Import Ledger LedgerSpec.

Lemma fold_left_Qplus_acc (l : list Q) (a : Q) :
  fold_left Qplus l a == a + fold_left Qplus l 0.
Proof.
  revert a. induction l as [| x l IH]; intros a; simpl.
  - lra.
  - rewrite (IH (a + x)), (IH (0 + x)). lra.
Qed.

Lemma sum_cons (x : Q) (l : list Q) : Py.sum (x :: l) == x + Py.sum l.
Proof. unfold Py.sum. simpl. rewrite fold_left_Qplus_acc. lra. Qed.


Lemma update_row_middle (f : LendingRow → LendingRow) pre r rest :
  update_row (length pre + 2) f (pre ++ r :: rest) = (pre ++ f r :: rest)%list.
Proof.
  unfold update_row.
  replace (length pre + 2 - 2)%nat with (length pre) by lia.
  rewrite list_lookup_middle by done.
  by rewrite insert_app_r_alt, Nat.sub_diag by done.
Qed.

(** The loop computes [allocate] on the rows it has not yet visited and
    leaves the rows before them alone. *)
Lemma return_lending_loop_allocate `{!Py.Lowercase} p rt now records :
  ∀ pre pool,
    return_lending_loop p rt now records (length pre) pool (pre ++ records)
    = ((pre ++ (allocate p rt now records pool).1)%list,
       (allocate p rt now records pool).2).
Proof.
  induction records as [| record rest IH]; intros pre pool; simpl.
  - done.
  - destruct (Qle_bool pool 0); [done |].
    destruct ((Py.lower (person record) =? Py.lower p) && (status record =? "lent")).
    + destruct (Qle_bool (remaining record) pool).
      * unfold update_status, update_return_date, update_return_to, update_remaining.
        rewrite !update_row_middle. simpl.
        specialize (IH (pre ++ [closed_row rt now record])%list
                      (pool - remaining record)).
        rewrite length_app, <- !app_assoc in IH. simpl in IH.
        rewrite Nat.add_1_r in IH. apply IH.
      * unfold update_status, update_remaining.
        rewrite !update_row_middle. simpl.
        specialize (IH (pre ++ [partial_row (remaining record - pool) record])%list 0).
        rewrite length_app, <- !app_assoc in IH. simpl in IH.
        rewrite Nat.add_1_r in IH. apply IH.
    + specialize (IH (pre ++ [record])%list pool).
      rewrite length_app, <- !app_assoc in IH. simpl in IH.
      rewrite Nat.add_1_r in IH. apply IH.
Qed.




Lemma row_evolves_refl r : row_evolves r r.
Proof. repeat split; try done; lra. Qed.

(** Row by row, a repayment keeps the person and the amount and lowers
    the remaining balance, never below zero. *)
Lemma allocate_rows `{!Py.Lowercase} p rt now rs :
  ∀ pool, Forall2 row_evolves rs (allocate p rt now rs pool).1.
Proof.
  induction rs as [| r rest IH]; intros pool; simpl.
  - constructor.
  - destruct (Qle_bool pool 0) eqn:Hpool; simpl.
    { apply Forall2_same_length_lookup_2; [done |].
      intros i x y Hx Hy. rewrite Hx in Hy. injection Hy as <-.
      apply row_evolves_refl. }
    destruct (Py.lower (person r) =? Py.lower p); simpl.
    + destruct (String.eqb_spec (status r) "lent") as [Hs | Hs].
      * destruct (Qle_bool (remaining r) pool) eqn:Hfull; simpl.
        -- constructor; [| apply IH].
           repeat split; simpl; try done; lra.
        -- constructor; [| apply IH].
           assert (¬ pool <= 0).
           { intros Hle. apply Qle_bool_iff in Hle. congruence. }
           assert (¬ remaining r <= pool).
           { intros Hle. apply Qle_bool_iff in Hle. congruence. }
           repeat split; simpl; try done; lra.
      * constructor; [apply row_evolves_refl | apply IH].
    + constructor; [apply row_evolves_refl | apply IH].
Qed.





Lemma add_transaction_connected ty wt a d c m dov now self rows :
  transactions_sheet self = Some rows →
  ∃ row,
    (add_transaction ty wt a d c m dov now self).2
    = {| transactions_sheet := Some (rows ++ [row])%list;
         lending_sheet := lending_sheet self |}
    ∧ type row = ty ∧ wallet_type row = wt ∧ Ledger.amount row = a
    ∧ category row = c.
Proof.
  intros Hrows. unfold add_transaction.
  destruct (get_current_balances self) as [total_balance wallet_balance].
  destruct (wt =? "total"), (wt =? "wallet"), (ty =? "add"); simpl;
    erewrite append_transaction_connected by done;
    eexists; repeat split.
Qed.

(** [return_lending] on connected worksheets: the lending rows become
    those of [allocate]; a transaction of the applied amount is recorded
    exactly when the pool has shrunk. *)
Lemma return_lending_connected `{!Py.Lowercase} p a rt now self rows txs :
  lending_sheet self = Some rows →
  transactions_sheet self = Some txs →
  let res := allocate p rt now rows a in
  let out := return_lending p a rt now self in
  (res.2 < a ∧ out.1.1 = true
   ∧ ∃ tx, out.2 = {| transactions_sheet := Some (txs ++ [tx])%list;
                      lending_sheet := Some res.1 |}
           ∧ type tx = "add" ∧ wallet_type tx = rt
           ∧ Ledger.amount tx = a - res.2 ∧ category tx = "lending")
  ∨ (a <= res.2 ∧ out.1.1 = false
     ∧ out.2 = {| transactions_sheet := Some txs; lending_sheet := Some res.1 |}).
Proof.
  intros Hl Ht. simpl. unfold return_lending. rewrite Hl.
  pose proof (return_lending_loop_allocate p rt now rows [] a) as Hloop.
  simpl in Hloop. rewrite Hloop.
  destruct (Qlt_le_dec (allocate p rt now rows a).2 a) as [Hlt | Hle].
  - left. split; [done |].
    match goal with
    | |- context [add_transaction ?ty ?wt ?x ?d ?c ?m ?o ?n ?st] =>
        destruct (add_transaction_connected ty wt x d c m o n st txs Ht)
          as (tx & Htx & Hty & Hwt & Ha & Hc);
        destruct (add_transaction ty wt x d c m o n st) as [bal st'] eqn:Hadd
    end.
    simpl in Htx. subst st'. simpl. split; [done |].
    by exists tx.
  - right. by rewrite Ht.
Qed.






(** C5. With loans of 100 and then 200 to one person and nothing else in
    the store, a repayment of 150 closes the first loan ([returned],
    nothing remaining), leaves the second [partial] with 150 remaining,
    and records one [add] transaction of 150 on the target wallet, whose
    balance it raises by 150. *)
Theorem C5_oldest_first `{!Py.Lowercase}
    (p d1 d2 return_to : string) (n1 n2 n3 : datetime) :
  let loans := add_lending p 200 d2 n2 (add_lending p 100 d1 n1 empty_tracker) in
  let out := return_lending p 150 return_to n3 loans in
  out.1.1 = true
  ∧ ∃ first second credit,
      lending_sheet out.2 = Some [first; second]
      ∧ l_amount first = 100 ∧ status first = "returned" ∧ remaining first = 0
      ∧ l_amount second = 200 ∧ status second = "partial"
      ∧ remaining second = 150
      ∧ transactions_sheet out.2 = Some [credit]
      ∧ type credit = "add" ∧ wallet_type credit = return_to
      ∧ Ledger.amount credit = 150 ∧ category credit = "lending"
      ∧ (return_to = "wallet" →
         (balance_total credit, balance_wallet credit) = (0, 150))
      ∧ (return_to = "total" →
         (balance_total credit, balance_wallet credit) = (150, 0)).
Proof.
  simpl. unfold return_lending, add_lending, empty_tracker. simpl.
  rewrite !String.eqb_refl. simpl.
  unfold add_transaction. simpl.
  destruct (String.eqb_spec return_to "total") as [Ht | Ht];
    destruct (String.eqb_spec return_to "wallet") as [Hw | Hw];
    subst; try discriminate; simpl;
    (split; [reflexivity |]);
    eexists _, _, _; repeat split; intros; try done; try discriminate.
Qed.

(** A row that is not in [lent] status, a [partial] one in particular, is
    left exactly as it is by [return_lending]. *)
Lemma return_lending_skips_unless_lent `{!Py.Lowercase}
    p a rt now self rows txs i r :
  lending_sheet self = Some rows →
  transactions_sheet self = Some txs →
  rows !! i = Some r →
  status r ≠ "lent" →
  ∃ rows', lending_sheet (return_lending p a rt now self).2 = Some rows'
           ∧ rows' !! i = Some r.
Proof.
  intros Hl Ht Hi Hs.
  exists (allocate p rt now rows a).1. split.
  - destruct (return_lending_connected p a rt now self rows _ Hl Ht)
      as [(_ & _ & tx & -> & _) | (_ & _ & ->)]; done.
  - destruct (Forall2_lookup_l _ _ _ _ _ (allocate_rows p rt now rows a) Hi)
      as (r' & Hi' & _ & _ & _ & Hsame).
    by rewrite Hi', (Hsame Hs).
Qed.

End LendingFacts.

(** The worked examples use ASCII names, which [str.lower()] lowercases
    letter by letter. *)
Section LendingExamples.
Import Ledger LedgerSpec.
#[local] Instance ascii_names : Py.Lowercase := Py.lower_ascii_string.


Lemma C5_witness :
  let loans :=
    add_lending "John" 200 "rent" 2%Z (add_lending "John" 100 "lunch" 1%Z empty_tracker) in
  let out := return_lending "John" 150 "wallet" 3%Z loans in
  ∃ credit,
    transactions_sheet out.2 = Some [credit]
    ∧ (balance_total credit, balance_wallet credit) = (0, 150).
Proof.
  destruct (C5_oldest_first "John" "lunch" "rent" "wallet" 1%Z 2%Z 3%Z)
    as (_ & first & second & credit & _ & _ & _ & _ & _ & _ & _ & Htx & _ & _ & _ & _
        & Hwallet & _).
  exists credit. split; [exact Htx | exact (Hwallet eq_refl)].
Defined.

(** C1, at a failing input. A loan of 200 that a first repayment of 50
    has left [partial] with 150 remaining is still pending for
    [get_pending_lending_for_person], yet a second repayment of 150 is
    refused and changes nothing: the loop visits rows in [lent] status
    only. *)
Theorem C1_partial_row_is_skipped :
  let lent := add_lending "John" 200 "rent" 1%Z empty_tracker in
  let first := return_lending "John" 50 "wallet" 2%Z lent in
  let second := return_lending "John" 150 "wallet" 3%Z first.2 in
  first.1.1 = true
  ∧ (status <$> default [] (lending_sheet first.2)) = ["partial"]
  ∧ (remaining <$> default [] (lending_sheet first.2)) = [150]
  ∧ get_pending_lending_for_person "John" first.2 == 150
  ∧ second.1 = (false, "No pending loans found for John")
  ∧ second.2 = first.2.
Proof. vm_compute. repeat split. Qed.

End LendingExamples.

Section ScoreFacts.
Import AIService.

(** C8. The score of [calculate_financial_health_score] is the score
    before the clamp brought into the range from 0 to 100, and the grade
    follows the bands 80, 60 and 40, so that it is always one of the four
    letters. *)
Theorem C8_health_score_clamped (data : HealthData) :
  let r := calculate_financial_health_score data in
  let raw := (health_factors data).1 in
  (0 <= score r <= 100)%Z
  ∧ ((raw < 0)%Z → score r = 0%Z)
  ∧ ((100 < raw)%Z → score r = 100%Z)
  ∧ ((0 <= raw <= 100)%Z → score r = raw)
  ∧ ((80 <= score r)%Z → grade r = "A")
  ∧ ((60 <= score r < 80)%Z → grade r = "B")
  ∧ ((40 <= score r < 60)%Z → grade r = "C")
  ∧ ((score r < 40)%Z → grade r = "D")
  ∧ (grade r = "A" ∨ grade r = "B" ∨ grade r = "C" ∨ grade r = "D").
Proof.
  unfold calculate_financial_health_score. simpl.
  generalize (health_factors data).1. intros raw.
  unfold Py.max, Py.min.
  repeat match goal with
         | |- context [(?a <=? ?b)%Z] => destruct (Z.leb_spec a b)
         end;
    repeat split; intros; try lia; auto.
Qed.

Lemma C8_witness :
  let data := {| income := Some 100; expenses := Some 20; budget := Some 100;
                 trend := Some "decreasing"; savings := Some 1000;
                 goals := None |} in
  (health_factors data).1 = 125%Z
  ∧ score (calculate_financial_health_score data) = 100%Z
  ∧ grade (calculate_financial_health_score data) = "A".
Proof.
  intros data.
  destruct (C8_health_score_clamped data) as (_ & _ & Hhigh & _ & HA & _).
  assert ((health_factors data).1 = 125%Z) as Hraw by (vm_compute; reflexivity).
  assert (score (calculate_financial_health_score data) = 100%Z) as Hs.
  { apply Hhigh. rewrite Hraw. reflexivity. }
  split; [exact Hraw |]. split; [exact Hs |].
  apply HA. rewrite Hs. discriminate.
Defined.

Lemma apply_factor_fst name f acc :
  (apply_factor name f acc).1
  = (acc.1 + match f with Some p => p.1 | None => 0 end)%Z.
Proof. destruct f as [[points text] |]; simpl; lia. Qed.

Lemma savings_factor_range income expenses :
  (-10 <= match savings_factor income expenses with
          | Some p => p.1 | None => 0 end <= 25)%Z.
Proof.
  unfold savings_factor.
  repeat match goal with
         | |- context [Qlt_le_dec ?a ?b] => destruct (Qlt_le_dec a b)
         | |- context [Qle_bool ?a ?b] => destruct (Qle_bool a b)
         end; simpl; lia.
Qed.

Lemma budget_factor_range budget expenses :
  (-15 <= match budget_factor budget expenses with
          | Some p => p.1 | None => 0 end <= 20)%Z.
Proof.
  unfold budget_factor.
  repeat match goal with
         | |- context [Qlt_le_dec ?a ?b] => destruct (Qlt_le_dec a b)
         | |- context [Qle_bool ?a ?b] => destruct (Qle_bool a b)
         end; simpl; lia.
Qed.

Lemma trend_factor_range trend : (-5 <= (trend_factor trend).1 <= 15)%Z.
Proof.
  unfold trend_factor.
  repeat match goal with
         | |- context [String.eqb ?a ?b] => destruct (String.eqb a b)
         end; simpl; lia.
Qed.

Lemma emergency_factor_range savings expenses :
  (-5 <= (emergency_factor savings expenses).1 <= 15)%Z.
Proof.
  unfold emergency_factor.
  repeat match goal with
         | |- context [Qle_bool ?a ?b] => destruct (Qle_bool a b)
         end; simpl; lia.
Qed.

Lemma goals_factor_range goals :
  (0 <= match goals_factor goals with
        | Some p => p.1 | None => 0 end <= 10)%Z.
Proof.
  unfold goals_factor.
  destruct (filter _ goals); [simpl; lia |].
  repeat match goal with
         | |- context [Qle_bool ?a ?b] => destruct (Qle_bool a b)
         end; simpl; lia.
Qed.

(** The score before the clamp is never below 15 nor above 135. *)
Lemma health_factors_range (data : HealthData) :
  (15 <= (health_factors data).1 <= 135)%Z.
Proof.
  unfold health_factors. cbv zeta. rewrite !apply_factor_fst.
  cbn [fst].
  pose proof (savings_factor_range (default 0 (income data))
                (default 0 (expenses data))).
  pose proof (budget_factor_range (default 0 (budget data))
                (default 0 (expenses data))).
  pose proof (trend_factor_range (default "stable" (trend data))).
  pose proof (emergency_factor_range (default 0 (savings data))
                (default 0 (expenses data))).
  pose proof (goals_factor_range (default [] (goals data))).
  lia.
Qed.

End ScoreFacts.

Section AverageFacts.
Import Analytics AnalyticsSpec.

Lemma recent_expenses_window (now : datetime) (days : Z) transactions :
  Forall well_formed transactions →
  recent_expenses (now - timedelta_days days)%Z transactions
  = Some (window_debits now days transactions).
Proof.
  induction 1 as [| t ts ([d Hd] & [a Ha]) _ IH]; simpl; [done |].
  unfold window_debits, is_debit, in_window in *. simpl.
  destruct (t_type t =? "subtract"); simpl; [| by rewrite IH].
  rewrite Hd. simpl.
  destruct (now - timedelta_days days <=? midnight d)%Z; simpl.
  - by rewrite Ha, IH.
  - by rewrite IH.
Qed.

Lemma category_expenses_window (now : datetime) (days : Z) category transactions :
  Forall well_formed transactions →
  category_expenses (now - timedelta_days days)%Z category transactions
  = Some (category_window_debits now days category transactions).
Proof.
  induction 1 as [| t ts ([d Hd] & [a Ha]) _ IH]; simpl; [done |].
  unfold category_window_debits, is_debit, in_window in *. simpl.
  destruct ((t_type t =? "subtract") && (get_category t =? category)); simpl;
    [| by rewrite IH].
  rewrite Hd. simpl.
  destruct (now - timedelta_days days <=? midnight d)%Z; simpl.
  - by rewrite Ha, IH.
  - by rewrite IH.
Qed.

(** C9. On transactions that Python can read and for a positive window,
    [calculate_daily_average] is the sum of the debits of the window
    divided by the number of days of the window, whereas
    [calculate_category_average] is the sum of the debits of the category
    in the window divided by their count, or by 1 when there is none. *)
Theorem C9_average_divisors (now : datetime) (transactions : list Transaction)
    (category : string) (days : Z) :
  (0 < days)%Z →
  Forall well_formed transactions →
  ∃ daily per_occurrence,
    calculate_daily_average now transactions days = Some daily
    ∧ daily == Py.sum (window_debits now days transactions) / inject_Z days
    ∧ calculate_category_average now transactions category days
      = Some per_occurrence
    ∧ per_occurrence
      == Py.sum (category_window_debits now days category transactions)
         / inject_Z
             (Z.max (Z.of_nat
                       (length (category_window_debits now days category
                                  transactions))) 1).
Proof.
  intros Hdays Hwf.
  unfold calculate_daily_average, calculate_category_average.
  destruct transactions as [| t ts].
  - exists 0, 0. repeat split; unfold Qeq; simpl; lia.
  - rewrite (recent_expenses_window now days _ Hwf),
      (category_expenses_window now days category _ Hwf). simpl.
    destruct (Z.ltb_spec 0 days); [| lia].
    eexists _, _. repeat split; reflexivity.
Qed.

Lemma C9_witness :
  ∃ daily per_occurrence,
    calculate_daily_average sample_now [debit 96 60; debit 95 30] 30 = Some daily
    ∧ daily == Py.sum (window_debits sample_now 30 [debit 96 60; debit 95 30])
               / inject_Z 30
    ∧ calculate_category_average sample_now [debit 96 60; debit 95 30] "food" 30
      = Some per_occurrence
    ∧ per_occurrence
      == Py.sum (category_window_debits sample_now 30 "food"
                   [debit 96 60; debit 95 30])
         / inject_Z
             (Z.max (Z.of_nat
                       (length (category_window_debits sample_now 30 "food"
                                  [debit 96 60; debit 95 30]))) 1).
Proof.
  apply (C9_average_divisors sample_now [debit 96 60; debit 95 30] "food" 30);
    [reflexivity |].
  repeat (constructor; [split; eexists; reflexivity |]). constructor.
Defined.

(** The two divisors at work: 90 spent in two purchases within a window of
    30 days is 3 a day and 45 a purchase. *)
Example two_divisors :
  calculate_daily_average sample_now [debit 96 60; debit 95 30] 30 = Some (90 # 30)
  ∧ calculate_category_average sample_now [debit 96 60; debit 95 30] "food" 30
    = Some (90 # 2).
Proof. split; vm_compute; reflexivity. Qed.

End AverageFacts.

Section BudgetFacts.
Import Analytics AnalyticsSpec.






(** The bands of the claim are those of [check_budget_status], the other
    place where a budget status is computed. *)
Lemma check_budget_status_bands (spent budget : Q) :
  0 < budget →
  AIService.check_budget_status spent budget
  = AIService.Checked (claimed_budget_status (spent / budget * 100))
      (spent / budget * 100) spent budget (budget - spent).
Proof.
  intros Hpos. unfold AIService.check_budget_status.
  destruct (Qle_bool budget 0) eqn:Hle; [| done].
  apply Qle_bool_iff in Hle. lra.
Qed.

End BudgetFacts.

Section TrendFacts.
Import Analytics AnalyticsSpec.

(** The two slices of the reversed list of weekly totals: the last two
    are the weeks of offsets 1 and 0, the first two the two weeks of the
    largest offsets. *)
Lemma week_totals_slices (f : nat → Q) (n : nat) :
  (2 ≤ n)%nat →
  last_two (rev (f <$> seq 0 n)) = [f 1%nat; f 0%nat]
  ∧ first_two (rev (f <$> seq 0 n)) = [f (n - 1)%nat; f (n - 2)%nat].
Proof.
  intros Hn. split.
  - destruct n as [| [| m]]; [lia | lia |].
    unfold last_two. rewrite length_rev, length_fmap, length_seq. simpl.
    rewrite <- app_assoc. simpl.
    apply drop_app_length'. rewrite length_rev, length_fmap, length_seq. lia.
  - unfold first_two.
    replace n with ((n - 2) + 2)%nat at 1 by lia.
    rewrite seq_app, fmap_app, rev_app_distr. simpl.
    by replace (S (n - 2)) with (n - 1)%nat by lia.
Qed.

Lemma trend_of_week_totals_slices (f : nat → Q) (n : nat) :
  (2 ≤ n)%nat →
  trend_of_week_totals (f <$> seq 0 n)
  = (let recent_avg := Py.fdiv (Py.float_sum [f 1%nat; f 0%nat]) 2 in
     let older_avg :=
       Py.fdiv (Py.float_sum [f (n - 1)%nat; f (n - 2)%nat]) 2 in
     if Qeq_bool older_avg 0 then
       (if Qlt_le_dec 0 recent_avg then "increasing" else "stable")
     else
       let change :=
         Py.fmul (Py.fdiv (Py.fsub recent_avg older_avg) older_avg) 100 in
       if Qlt_le_dec 15 change then
         "increasing " ++ Py.format_0f (Qabs change) ++ "%"
       else if Qlt_le_dec change (-15) then
         "decreasing " ++ Py.format_0f (Qabs change) ++ "%"
       else "stable").
Proof.
  intros Hn. unfold trend_of_week_totals.
  rewrite length_rev, length_fmap, length_seq.
  destruct (Nat.ltb_spec n 2); [lia |].
  destruct (Nat.leb_spec 2 n); [| lia].
  destruct (week_totals_slices f n Hn) as [-> ->]. reflexivity.
Qed.

(** C7, as the code has it. With fewer than two transactions the answer
    is [Not enough data]. Otherwise, over a span of at least two weeks,
    the average of the two most recent weekly totals is compared with the
    average of the two oldest, all in float arithmetic: when the older
    average is not zero, a change above 15 percent is [increasing X%], one
    below -15 percent is [decreasing X%] and anything between is [stable],
    where [X] is the float [change] without its sign, rounded by the [.0f]
    format; when the older average is zero the answer is [increasing],
    without a percentage, if the recent average is positive, and [stable]
    if not. Weekly totals of 100, 100, 130, 130 give [increasing 30%]. *)
Theorem C7_trend_labels (now : datetime) (transactions : list Transaction)
    (category : option string) (weeks : Z) :
  let w := week_total now transactions category in
  let recent_avg := Py.fdiv (Py.float_sum [w 1%Z; w 0%Z]) 2 in
  let older_avg :=
    Py.fdiv (Py.float_sum [w (weeks - 1)%Z; w (weeks - 2)%Z]) 2 in
  let change :=
    Py.fmul (Py.fdiv (Py.fsub recent_avg older_avg) older_avg) 100 in
  let answer := detect_trend now transactions category weeks in
  ((length transactions < 2)%nat → answer = "Not enough data")
  ∧ ((2 ≤ length transactions)%nat → (2 <= weeks)%Z →
     (¬ older_avg == 0 → 15 < change →
      answer = "increasing " ++ Py.format_0f (Qabs change) ++ "%")
     ∧ (¬ older_avg == 0 → change < -15 →
        answer = "decreasing " ++ Py.format_0f (Qabs change) ++ "%")
     ∧ (¬ older_avg == 0 → -15 <= change ∧ change <= 15 → answer = "stable")
     ∧ (older_avg == 0 → 0 < recent_avg → answer = "increasing")
     ∧ (older_avg == 0 → recent_avg <= 0 → answer = "stable"))
  ∧ trend_of_week_totals (rev [100; 100; 130; 130]) = "increasing 30%"
  ∧ detect_trend sample_now
      [debit 75 100; debit 82 100; debit 89 130; debit 96 130] None 4
    = "increasing 30%".
Proof.
  cbv zeta. split; [| split; [| split; vm_compute; reflexivity]].
  - intros Hlen. unfold detect_trend.
    by destruct (Nat.ltb_spec (length transactions) 2); [| lia].
  - intros Hlen Hweeks. unfold detect_trend.
    destruct (Nat.ltb_spec (length transactions) 2); [lia |].
    rewrite (trend_of_week_totals_slices
               (λ k, week_total now transactions category (Z.of_nat k))
               (Z.to_nat weeks)) by lia.
    cbv beta zeta.
    replace (Z.of_nat (Z.to_nat weeks - 1)) with (weeks - 1)%Z by lia.
    replace (Z.of_nat (Z.to_nat weeks - 2)) with (weeks - 2)%Z by lia.
    change (Z.of_nat 1) with 1%Z. change (Z.of_nat 0) with 0%Z.
    set (recent_avg :=
           Py.fdiv
             (Py.float_sum [week_total now transactions category 1%Z;
                            week_total now transactions category 0%Z]) 2).
    set (older_avg :=
           Py.fdiv
             (Py.float_sum [week_total now transactions category (weeks - 1)%Z;
                            week_total now transactions category (weeks - 2)%Z])
             2).
    set (change :=
           Py.fmul (Py.fdiv (Py.fsub recent_avg older_avg) older_avg) 100).
    destruct (Qeq_bool older_avg 0) eqn:Hzero.
    + apply Qeq_bool_iff in Hzero.
      destruct (Qlt_le_dec 0 recent_avg);
        repeat split; intros;
        repeat match goal with H : _ ∧ _ |- _ => destruct H end;
        try done; exfalso; lra.
    + assert (¬ older_avg == 0) as Hnz.
      { intros Hz. apply Qeq_bool_iff in Hz. congruence. }
      destruct (Qlt_le_dec 15 change); [| destruct (Qlt_le_dec change (-15))];
        repeat split; intros;
        repeat match goal with H : _ ∧ _ |- _ => destruct H end;
        try done; exfalso; lra.
Qed.

(** The rounding of the floats shows in the answer: with weekly totals of
    40, 40, 17, 17 the change is the float next below -57.5, and the answer
    [decreasing 57%]; the exact quotient, -57.5, would be formatted as
    58. *)
Example trend_rounds_as_floats :
  trend_of_week_totals (rev [40; 40; 17; 17]) = "decreasing 57%"
  ∧ Py.fmul (Py.fdiv (Py.fsub 17 40) 40) 100
    == - (8092405580431359 # 140737488355328)
  ∧ Py.format_0f ((17 - 40) / 40 * 100 * -1) = "58".
Proof. vm_compute. repeat split. Qed.

Lemma C7_witness :
  detect_trend sample_now [debit 75 100; debit 82 100; debit 89 50; debit 96 50]
    None 4
  = "decreasing 50%".
Proof.
  destruct (C7_trend_labels sample_now
              [debit 75 100; debit 82 100; debit 89 50; debit 96 50] None 4)
    as (_ & H & _).
  destruct (H ltac:(simpl; lia) ltac:(lia)) as (_ & Hdown & _).
  rewrite Hdown; [vm_compute; reflexivity | vm_compute; discriminate
                 | vm_compute; reflexivity].
Defined.

(** C7 as stated fails: two debits in the most recent week and none
    before give [increasing], which is none of the answers of the claim
    (the change is by no percentage of zero). *)
Lemma C7_counterexample :
  (2 ≤ length [debit 96 100; debit 96 100])%nat
  ∧ detect_trend sample_now [debit 96 100; debit 96 100] None 4 = "increasing"
  ∧ ¬ claimed_trend_answer
        (detect_trend sample_now [debit 96 100; debit 96 100] None 4).
Proof.
  assert (detect_trend sample_now [debit 96 100; debit 96 100] None 4
          = "increasing") as Hanswer by (vm_compute; reflexivity).
  split; [simpl; lia |]. split; [exact Hanswer |].
  rewrite Hanswer.
  intros [H | [H | [[x H] | [x H]]]]; simpl in H; discriminate.
Qed.

End TrendFacts.


(** * Further properties of the transaction engine *)

Section UndoFacts.
Import Ledger LedgerSpec.

Lemma delete_last_snoc {A} (l : list A) (x : A) :
  delete (length l) (l ++ [x])%list = l.
Proof. induction l as [| y l IH]; simpl; [done | by rewrite IH]. Qed.

Lemma undo_after_append row self rows :
  transactions_sheet self = Some rows →
  undo_last_transaction (append_transaction row self)
  = ((true, "Last transaction undone successfully"), self).
Proof.
  intros Hrows. rewrite (append_transaction_connected _ _ _ Hrows).
  unfold undo_last_transaction. simpl.
  rewrite length_app. simpl.
  destruct (Nat.ltb_spec (length rows + 1) 1); [lia |].
  unfold delete_rows.
  replace (length rows + 1 + 1 - 2)%nat with (length rows) by lia.
  rewrite delete_last_snoc. destruct self; simpl in *. by subst.
Qed.

(** X1. On a connected sheet, undoing right after [add_transaction], or
    after a transfer that succeeded, gives back the tracker as it was
    before the call, and with it both balances. *)
Theorem undo_reverts_last_write (self : ExpenseTracker) (rows : list TransactionRow)
    (transaction_type wallet_type : string) (amount : Q)
    (description category merchant : string) (date_override : option datetime)
    (from_wallet to_wallet : string) (now : datetime) :
  transactions_sheet self = Some rows →
  undo_last_transaction
    (add_transaction transaction_type wallet_type amount description category
       merchant date_override now self).2
  = ((true, "Last transaction undone successfully"), self)
  ∧ ((transfer_between_wallets from_wallet to_wallet amount description now self).1.1.1.1
     = true →
     undo_last_transaction
       (transfer_between_wallets from_wallet to_wallet amount description now self).2
     = ((true, "Last transaction undone successfully"), self)).
Proof.
  intros Hrows. split.
  - unfold add_transaction.
    destruct (get_current_balances self) as [total_balance wallet_balance].
    destruct (wallet_type =? "total"), (wallet_type =? "wallet"),
      (transaction_type =? "add"); simpl; by apply undo_after_append with rows.
  - unfold transfer_between_wallets.
    destruct (get_current_balances self) as [total_balance wallet_balance].
    destruct ((from_wallet =? "total") && (to_wallet =? "wallet"));
      [| destruct ((from_wallet =? "wallet") && (to_wallet =? "total"))];
      repeat match goal with
             | |- context [Qlt_le_dec ?a ?b] => destruct (Qlt_le_dec a b)
             end; simpl; try discriminate;
      intros _; by apply undo_after_append with rows.
Qed.

Lemma undo_reverts_last_write_witness :
  undo_last_transaction
    (add_transaction "subtract" "wallet" 15 "lunch" "food" "cafe" None 0%Z
       empty_tracker).2
  = ((true, "Last transaction undone successfully"), empty_tracker).
Proof.
  exact (proj1 (undo_reverts_last_write empty_tracker [] "subtract" "wallet" 15
                  "lunch" "food" "cafe" None "total" "wallet" 0%Z eq_refl)).
Defined.

Lemma replay_consistent_take rows k :
  replay_consistent rows → replay_consistent (take k rows).
Proof. intros H n. rewrite take_take. apply H. Qed.

Lemma delete_last_take {A} (l : list A) :
  delete (length l - 1)%nat l = take (length l - 1)%nat l.
Proof.
  destruct l as [| x l] using rev_ind; [done |].
  rewrite length_app. simpl.
  replace (length l + 1 - 1)%nat with (length l) by lia.
  by rewrite delete_last_snoc, take_app_length.
Qed.

Lemma op_step_replay_consistent (o : ledger_op) (self : ExpenseTracker) rows :
  op_ok o →
  transactions_sheet self = Some rows →
  replay_consistent rows →
  ∃ rows', transactions_sheet (op_step self o) = Some rows'
           ∧ replay_consistent rows'.
Proof.
  intros Hok Hrows Hcons. destruct o as [c |]; simpl.
  - by apply step_replay_consistent with rows.
  - unfold undo_last_transaction. rewrite Hrows.
    destruct (length rows <? 1)%nat; simpl.
    + by exists rows.
    + eexists. split; [reflexivity |]. unfold delete_rows.
      replace (length rows + 1 - 2)%nat with (length rows - 1)%nat by lia.
      rewrite delete_last_take. by apply replay_consistent_take.
Qed.

(** X2. The balance replay invariant survives undo: after any sequence of
    [add_transaction] (kind [add] or [subtract]), transfer and
    [undo_last_transaction] calls on an empty ledger, folding the deltas of
    the rows gives the current balances, and every prefix of the ledger
    replays to its own checkpoint. *)
Theorem replay_survives_undo (ops : list ledger_op)
    (lending : option (list LendingRow)) :
  Forall op_ok ops →
  ∃ rows,
    let final :=
      op_run ops {| transactions_sheet := Some []; lending_sheet := lending |} in
    transactions_sheet final = Some rows
    ∧ replay rows = get_current_balances final
    ∧ ∀ n : nat, replay (take n rows) = checkpoint (take n rows).
Proof.
  intros Hok.
  assert (∀ self rows, transactions_sheet self = Some rows → replay_consistent rows →
            ∃ rows', transactions_sheet (op_run ops self) = Some rows'
                     ∧ replay_consistent rows') as Hrun.
  { induction Hok as [| o ops Ho _ IH]; intros self rows Hrows Hcons; simpl.
    - by exists rows.
    - destruct (op_step_replay_consistent o self rows Ho Hrows Hcons)
        as (rows1 & Hrows1 & Hcons1).
      by apply (IH _ rows1). }
  destruct (Hrun {| transactions_sheet := Some []; lending_sheet := lending |} []
              eq_refl replay_consistent_nil) as (rows & Hrows & Hcons).
  exists rows. simpl. split; [done |]. split; [| done].
  rewrite (get_current_balances_checkpoint _ _ Hrows).
  by apply replay_consistent_whole.
Qed.

Lemma replay_survives_undo_witness :
  ∃ rows,
    let final :=
      op_run [Call (RecordTransaction "add" "total" 100 "salary" "income" "" None 0%Z);
              Call (TransferBetweenWallets "total" "wallet" 40 "Transfer" 0%Z);
              Undo;
              Call (RecordTransaction "subtract" "total" 15 "lunch" "food" "" None 0%Z)]
        {| transactions_sheet := Some []; lending_sheet := None |} in
    transactions_sheet final = Some rows
    ∧ replay rows = get_current_balances final
    ∧ ∀ n : nat, replay (take n rows) = checkpoint (take n rows).
Proof.
  apply (replay_survives_undo
           [Call (RecordTransaction "add" "total" 100 "salary" "income" "" None 0%Z);
            Call (TransferBetweenWallets "total" "wallet" 40 "Transfer" 0%Z);
            Undo;
            Call (RecordTransaction "subtract" "total" 15 "lunch" "food" "" None 0%Z)]
           None).
  repeat (constructor;
          [first [exact I | left; reflexivity | right; reflexivity] |]).
  constructor.
Defined.

End UndoFacts.

Section RepaymentFacts.
Import Ledger LedgerSpec.

Lemma add_transaction_lending ty wt a d c m dov now self :
  lending_sheet (add_transaction ty wt a d c m dov now self).2 = lending_sheet self.
Proof.
  unfold add_transaction, append_transaction.
  destruct (get_current_balances self) as [total_balance wallet_balance].
  destruct (wt =? "total"), (wt =? "wallet"), (ty =? "add"); simpl;
    by destruct (transactions_sheet self).
Qed.

(** [return_lending] with the lending sheet connected, whatever the
    transactions sheet: success exactly when the pool has shrunk. *)
Lemma return_lending_cases `{!Py.Lowercase} p a rt now self rows :
  lending_sheet self = Some rows →
  let res := allocate p rt now rows a in
  let out := return_lending p a rt now self in
  lending_sheet out.2 = Some res.1
  ∧ ((res.2 < a ∧ out.1.1 = true)
     ∨ (a <= res.2 ∧ out.1.1 = false
        ∧ out.2 = {| transactions_sheet := transactions_sheet self;
                     lending_sheet := Some res.1 |})).
Proof.
  intros Hl. simpl. unfold return_lending. rewrite Hl.
  pose proof (return_lending_loop_allocate p rt now rows [] a) as Hloop.
  simpl in Hloop. rewrite Hloop.
  destruct (Qlt_le_dec (allocate p rt now rows a).2 a) as [Hlt | Hle].
  - match goal with
    | |- context [add_transaction ?ty ?wt ?x ?d ?c ?m ?o ?n ?st] =>
        pose proof (add_transaction_lending ty wt x d c m o n st) as Hkeep;
        destruct (add_transaction ty wt x d c m o n st) as [bal st'] eqn:Hadd
    end.
    simpl in *. split; [done | by left].
  - simpl. split; [done | by right].
Qed.

Lemma lent_outstanding_cons_in `{!Py.Lowercase} p r rows :
  Py.lower (person r) = Py.lower p → status r = "lent" →
  lent_outstanding p (r :: rows) == remaining r + lent_outstanding p rows.
Proof.
  intros Hp Hs. unfold lent_outstanding, lent_rows.
  rewrite filter_cons_True by done. rewrite fmap_cons. apply sum_cons.
Qed.

Lemma lent_outstanding_cons_out `{!Py.Lowercase} p r rows :
  ¬ (Py.lower (person r) = Py.lower p ∧ status r = "lent") →
  lent_outstanding p (r :: rows) = lent_outstanding p rows.
Proof.
  intros Hn. unfold lent_outstanding, lent_rows. by rewrite filter_cons_False.
Qed.

Lemma lent_outstanding_nonneg `{!Py.Lowercase} p rows :
  lent_positive p rows → 0 <= lent_outstanding p rows.
Proof.
  induction 1 as [| r rows Hr _ IH].
  - unfold lent_outstanding, Py.sum. simpl. lra.
  - destruct (decide (Py.lower (person r) = Py.lower p ∧ status r = "lent"))
      as [[Hp Hs] | Hn].
    + rewrite lent_outstanding_cons_in by done. specialize (Hr Hp Hs). lra.
    + by rewrite lent_outstanding_cons_out.
Qed.

Lemma lent_outstanding_pos `{!Py.Lowercase} p rows :
  lent_positive p rows → lent_rows p rows ≠ [] → 0 < lent_outstanding p rows.
Proof.
  induction 1 as [| r rows Hr Hrows IH]; intros Hne; [done |].
  destruct (decide (Py.lower (person r) = Py.lower p ∧ status r = "lent"))
    as [[Hp Hs] | Hn].
  - rewrite lent_outstanding_cons_in by done.
    pose proof (lent_outstanding_nonneg p rows Hrows). specialize (Hr Hp Hs). lra.
  - rewrite lent_outstanding_cons_out by done. apply IH.
    unfold lent_rows in *. by rewrite filter_cons_False in Hne.
Qed.

Lemma allocate_noop_nonpositive `{!Py.Lowercase} p rt now rs pool :
  pool <= 0 → allocate p rt now rs pool = (rs, pool).
Proof.
  intros Hle. destruct rs as [| r rest]; simpl; [done |].
  apply Qle_bool_iff in Hle. by rewrite Hle.
Qed.

Lemma allocate_noop_no_lent `{!Py.Lowercase} p rt now rs :
  ∀ pool, lent_rows p rs = [] → allocate p rt now rs pool = (rs, pool).
Proof.
  induction rs as [| r rest IH]; intros pool Hnone; simpl; [done |].
  destruct (Qle_bool pool 0); [done |].
  unfold lent_rows in Hnone. rewrite filter_cons in Hnone.
  destruct (decide _) as [Hin | Hout]; [done |].
  destruct (String.eqb_spec (Py.lower (person r)) (Py.lower p)) as [Hp | Hp];
    destruct (String.eqb_spec (status r) "lent") as [Hs | Hs]; simpl;
    try (by destruct Hout); by rewrite IH.
Qed.

(** What is left of the pool: nothing if the rows can absorb it, the
    excess if not. *)
Lemma allocate_pool_bounds `{!Py.Lowercase} p rt now rs :
  lent_positive p rs →
  ∀ pool, 0 <= pool →
    (lent_outstanding p rs <= pool →
     (allocate p rt now rs pool).2 == pool - lent_outstanding p rs)
    ∧ (pool <= lent_outstanding p rs → (allocate p rt now rs pool).2 == 0).
Proof.
  induction 1 as [| r rest Hr Hrest IH]; intros pool Hpool.
  - unfold lent_outstanding, Py.sum. simpl. split; intros; lra.
  - pose proof (lent_outstanding_nonneg p rest Hrest) as Hnn.
    simpl. destruct (Qle_bool pool 0) eqn:Hzero; simpl.
    { apply Qle_bool_iff in Hzero.
      pose proof (lent_outstanding_nonneg p (r :: rest)
                    (Forall_cons_2 _ _ _ Hr Hrest)).
      split; intros; lra. }
    assert (0 < pool) as Hpos.
    { destruct (Qlt_le_dec 0 pool) as [| Hle]; [done |].
      apply Qle_bool_iff in Hle. congruence. }
    destruct (String.eqb_spec (Py.lower (person r)) (Py.lower p)) as [Hp | Hp];
      [destruct (String.eqb_spec (status r) "lent") as [Hs | Hs] |]; simpl.
    + pose proof (lent_outstanding_cons_in p r rest Hp Hs) as Hsum.
      specialize (Hr Hp Hs).
      destruct (Qle_bool (remaining r) pool) eqn:Hfull; simpl.
      * apply Qle_bool_iff in Hfull.
        destruct (IH (pool - remaining r)) as [IH1 IH2]; [lra |].
        split; intros.
        -- rewrite IH1 by lra. lra.
        -- apply IH2. lra.
      * assert (pool < remaining r) as Hlt.
        { destruct (Qlt_le_dec pool (remaining r)) as [| Hle]; [done |].
          apply Qle_bool_iff in Hle. congruence. }
        destruct (IH 0) as [_ IH2]; [lra |].
        split; intros; [lra | by apply IH2].
    + rewrite lent_outstanding_cons_out by (intros [_ ?]; done).
      by apply IH.
    + rewrite lent_outstanding_cons_out by (intros [? _]; done).
      by apply IH.
Qed.

(** X4. While every [lent] row of the person still owes something,
    [return_lending] succeeds exactly when the amount is positive and the
    person has a row in [lent] status, and a call that fails leaves the
    whole tracker as it was. *)
Theorem return_lending_success_iff `{!Py.Lowercase}
    (p : string) (a : Q) (rt : string)
    (now : datetime) (self : ExpenseTracker) (rows : list LendingRow) :
  lending_sheet self = Some rows →
  lent_positive p rows →
  let out := return_lending p a rt now self in
  (out.1.1 = true ↔ 0 < a ∧ lent_rows p rows ≠ [])
  ∧ (out.1.1 = false → out.2 = self).
Proof.
  intros Hl Hpos out. subst out.
  destruct (return_lending_cases p a rt now self rows Hl) as [Hlend Hcases].
  assert (0 < a ∧ lent_rows p rows ≠ [] → (allocate p rt now rows a).2 < a) as Hshrink.
  { intros [Ha Hne].
    pose proof (lent_outstanding_pos p rows Hpos Hne) as Hs.
    destruct (allocate_pool_bounds p rt now rows Hpos a) as [H1 H2]; [lra |].
    destruct (Qlt_le_dec a (lent_outstanding p rows)).
    - rewrite H2 by lra. lra.
    - rewrite H1 by lra. lra. }
  assert (¬ (0 < a ∧ lent_rows p rows ≠ []) →
          allocate p rt now rows a = (rows, a)) as Hnoop.
  { intros Hn. destruct (Qlt_le_dec 0 a) as [Ha | Ha].
    - apply allocate_noop_no_lent.
      destruct (lent_rows p rows) eqn:Hrows; [done |].
      destruct Hn. by split.
    - by apply allocate_noop_nonpositive. }
  assert ((0 < a ∧ lent_rows p rows ≠ []) ∨ ¬ (0 < a ∧ lent_rows p rows ≠ []))
    as [Hyes | Hno].
  { destruct (Qlt_le_dec 0 a) as [Ha | Ha]; [| right; intros [? _]; lra].
    destruct (lent_rows p rows); [right; by intros [_ ?] | by left]. }
  - specialize (Hshrink Hyes).
    destruct Hcases as [[_ Htrue] | [Hle _]]; [| lra].
    split; [done |]. rewrite Htrue. discriminate.
  - specialize (Hnoop Hno). rewrite Hnoop in Hcases. simpl in Hcases.
    destruct Hcases as [[Hlt _] | (_ & Hfalse & Hout)]; [lra |].
    split.
    + rewrite Hfalse. split; [discriminate | done].
    + intros _. rewrite Hout. destruct self; simpl in *. by subst.
Qed.









Lemma allocate_coherent `{!Py.Lowercase} p rt now rs :
  ∀ pool, Forall (row_coherent p) rs →
          Forall (row_coherent p) (allocate p rt now rs pool).1.
Proof.
  induction rs as [| r rest IH]; intros pool Hok; simpl; [done |].
  inversion Hok as [| ? ? Hr Hrest]; subst.
  destruct (Qle_bool pool 0) eqn:Hzero; simpl; [done |].
  destruct (String.eqb_spec (Py.lower (person r)) (Py.lower p)) as [Hp | Hp];
    [destruct (String.eqb_spec (status r) "lent") as [Hs | Hs] |]; simpl;
    try (constructor; [done | by apply IH]).
  destruct (Hr Hp) as [(_ & Hrem & Hamt) | [(Hs' & _) | (Hs' & _)]];
    [| congruence | congruence].
  destruct (Qle_bool (remaining r) pool) eqn:Hfull; simpl;
    (constructor; [| by apply IH]); intros _.
  - right. right. simpl. repeat split; try done; try by eexists.
  - right. left. simpl.
    assert (¬ pool <= 0) as Hpool.
    { intros Hle. apply Qle_bool_iff in Hle. congruence. }
    assert (¬ remaining r <= pool) as Hpart.
    { intros Hle. apply Qle_bool_iff in Hle. congruence. }
    repeat split; try done; lra.
Qed.

(** X7. Along any sequence of [add_lending] (of positive amounts) and
    [return_lending] calls for a person, on a store that held no loan of
    the person, the status of every row of the person agrees with what it
    owes: a [lent] row owes its whole amount, a [partial] row a part of it,
    a [returned] row nothing, with its return date and wallet recorded. *)
Theorem status_agrees_with_remaining `{!Py.Lowercase}
    (p : string) (calls : list loan_call)
    (init : ExpenseTracker) (rows0 : list LendingRow) :
  lending_sheet init = Some rows0 →
  rows_of p rows0 = [] →
  Forall loan_ok calls →
  ∃ rows,
    lending_sheet (loan_run p calls init) = Some rows
    ∧ Forall (λ r,
        (status r = "lent" ∧ remaining r == l_amount r ∧ 0 < l_amount r)
        ∨ (status r = "partial" ∧ 0 < remaining r ∧ remaining r < l_amount r)
        ∨ (status r = "returned" ∧ remaining r == 0
           ∧ is_Some (return_date r) ∧ is_Some (Ledger.return_to r)))
        (rows_of p rows).
Proof.
  intros Hl Hnone Hcalls.
  assert (Forall (row_coherent p) rows0) as Hinit.
  { apply Forall_forall. intros r Hr Hp.
    by destruct (filter_nil_not_elem_of _ _ r Hnone Hp). }
  clear Hnone.
  assert (∃ rows, lending_sheet (loan_run p calls init) = Some rows
                  ∧ Forall (row_coherent p) rows) as (rows & Hrows & Hok).
  { revert init rows0 Hl Hinit.
    induction Hcalls as [| c calls Hc _ IH]; intros init rows0 Hl Hinit; simpl.
    - by exists rows0.
    - destruct c as [a d now | a rt now]; simpl in *.
      + eapply IH.
        * unfold add_lending. rewrite Hl. reflexivity.
        * apply Forall_app. split; [done |].
          constructor; [| constructor]. intros _. left. simpl.
          repeat split; done.
      + destruct (return_lending_cases p a rt now init rows0 Hl) as [Hlend _].
        apply (IH _ _ Hlend). by apply allocate_coherent. }
  exists rows. split; [done |].
  apply Forall_forall. intros r Hr.
  apply list_elem_of_filter in Hr as [Hp Hr].
  by apply (proj1 (Forall_forall _ _) Hok r Hr).
Qed.

(** X8. [return_lending] never changes a row that is not in [lent]
    status: a [partial] or [returned] row keeps every column, whoever the
    repayment is for and whatever its amount. *)
Theorem return_lending_keeps_closed_rows `{!Py.Lowercase}
    (p : string) (a : Q) (rt : string)
    (now : datetime) (self : ExpenseTracker) (rows : list LendingRow)
    (i : nat) (r : LendingRow) :
  lending_sheet self = Some rows →
  rows !! i = Some r →
  status r ≠ "lent" →
  ∃ rows', lending_sheet (return_lending p a rt now self).2 = Some rows'
           ∧ length rows' = length rows
           ∧ rows' !! i = Some r.
Proof.
  intros Hl Hi Hs.
  destruct (return_lending_cases p a rt now self rows Hl) as [Hlend _].
  pose proof (allocate_rows p rt now rows a) as Hev.
  exists (allocate p rt now rows a).1. split; [done |]. split.
  - symmetry. by eapply Forall2_length.
  - destruct (Forall2_lookup_l _ _ _ _ _ Hev Hi) as (r' & Hi' & _ & _ & _ & Hsame).
    by rewrite Hi', (Hsame Hs).
Qed.

End RepaymentFacts.

(** Worked examples of the repayment properties, with ASCII names. *)
Section RepaymentExamples.
Import Ledger LedgerSpec.
#[local] Existing Instance ascii_names.

Lemma return_lending_success_iff_witness :
  (return_lending "John" 150 "wallet" 3%Z
     (add_lending "Asha" 100 "lunch" 1%Z empty_tracker)).2
  = add_lending "Asha" 100 "lunch" 1%Z empty_tracker.
Proof.
  destruct (return_lending_success_iff "John" 150 "wallet" 3%Z
              (add_lending "Asha" 100 "lunch" 1%Z empty_tracker)
              [{| l_date := 0; person := "Asha"; l_amount := 100; status := "lent";
                  l_description := "lunch"; return_date := None; return_to := None;
                  remaining := 100 |}] eq_refl) as [_ Hfail].
  - constructor; [| constructor]. intros Hp. vm_compute in Hp. discriminate.
  - apply Hfail. vm_compute. reflexivity.
Defined.




Lemma status_agrees_with_remaining_witness :
  ∃ rows,
    lending_sheet
      (loan_run "John"
         [RecordLoan 100 "lunch" 0%Z; RecordLoan 200 "rent" 0%Z;
          ApplyRepayment 150 "wallet" 0%Z] empty_tracker) = Some rows
    ∧ Forall (λ r,
        (status r = "lent" ∧ remaining r == l_amount r ∧ 0 < l_amount r)
        ∨ (status r = "partial" ∧ 0 < remaining r ∧ remaining r < l_amount r)
        ∨ (status r = "returned" ∧ remaining r == 0
           ∧ is_Some (return_date r) ∧ is_Some (Ledger.return_to r)))
        (rows_of "John" rows).
Proof.
  apply (status_agrees_with_remaining "John"
           [RecordLoan 100 "lunch" 0%Z; RecordLoan 200 "rent" 0%Z;
            ApplyRepayment 150 "wallet" 0%Z] empty_tracker []);
    [reflexivity | reflexivity |].
  constructor; [reflexivity |].
  constructor; [reflexivity |].
  constructor; [exact I | constructor].
Defined.

Lemma return_lending_keeps_closed_rows_witness :
  let r := {| l_date := 0; person := "John"; l_amount := 200; status := "partial";
              l_description := "rent"; return_date := None; return_to := None;
              remaining := 150 |} in
  ∃ rows',
    lending_sheet
      (return_lending "John" 150 "wallet" 3%Z
         {| transactions_sheet := None; lending_sheet := Some [r] |}).2 = Some rows'
    ∧ length rows' = length [r]
    ∧ rows' !! 0%nat = Some r.
Proof.
  intros r.
  apply (return_lending_keeps_closed_rows "John" 150 "wallet" 3%Z
           {| transactions_sheet := None; lending_sheet := Some [r] |} [r] 0%nat r);
    [reflexivity | reflexivity | discriminate].
Defined.

End RepaymentExamples.


(** * Further properties of the analytics *)

Section SummaryFacts.
Import Analytics AnalyticsSpec.

Lemma sum_omap_cons {A} (f : A → option Q) (x : A) (l : list A) :
  Py.sum (omap f (x :: l)) == default 0 (f x) + Py.sum (omap f l).
Proof.
  simpl. destruct (f x); simpl; [apply sum_cons | by rewrite Qplus_0_l].
Qed.

Lemma summary_fold (now : datetime) (days : Z) ts :
  ∀ acc : Q * Q,
    (fold_left (summary_step (now - timedelta_days days)%Z) ts acc).1
    == acc.1 + Py.sum (window_credits now days ts)
    ∧ (fold_left (summary_step (now - timedelta_days days)%Z) ts acc).2
      == acc.2 + Py.sum (window_debits now days ts).
Proof.
  induction ts as [| t ts IH]; intros acc; simpl.
  - unfold window_credits, window_debits, Py.sum. simpl. split; lra.
  - destruct (IH (summary_step (now - timedelta_days days)%Z acc t)) as [IH1 IH2].
    rewrite IH1, IH2. clear IH IH1 IH2.
    pose proof (sum_omap_cons
      (λ t, if is_credit t && in_window now days t then t_amount t else None) t ts)
      as Hc.
    pose proof (sum_omap_cons
      (λ t, if is_debit t && in_window now days t then t_amount t else None) t ts)
      as Hd.
    fold (window_credits now days (t :: ts)) in Hc.
    fold (window_credits now days ts) in Hc.
    fold (window_debits now days (t :: ts)) in Hd.
    fold (window_debits now days ts) in Hd.
    rewrite Hc, Hd. clear Hc Hd.
    unfold summary_step, is_credit, is_debit, in_window.
    destruct (t_date t) as [d |]; simpl;
      [| rewrite !andb_false_r; simpl; split; lra].
    destruct (now - timedelta_days days <=? midnight d)%Z; simpl;
      [| rewrite !andb_false_r; simpl; split; lra].
    rewrite !andb_true_r.
    destruct (t_amount t) as [a |]; simpl.
    + destruct (String.eqb_spec (t_type t) "add") as [Ha | Ha]; simpl.
      * rewrite Ha. simpl. split; lra.
      * destruct (t_type t =? "subtract"); simpl; split; lra.
    + destruct (t_type t =? "add"), (t_type t =? "subtract"); simpl; split; lra.
Qed.

Lemma recent_expenses_Some (now : datetime) (days : Z) ts :
  ∀ xs, recent_expenses (now - timedelta_days days)%Z ts = Some xs →
        xs = window_debits now days ts.
Proof.
  induction ts as [| t ts IH]; intros xs; simpl.
  - by intros [= <-].
  - unfold window_debits, is_debit, in_window in *. simpl.
    destruct (t_type t =? "subtract"); simpl; [| apply IH].
    destruct (t_date t) as [d |]; simpl; [| done].
    destruct (now - timedelta_days days <=? midnight d)%Z; simpl; [| apply IH].
    destruct (t_amount t) as [a |]; simpl; [| done].
    destruct (recent_expenses _ ts) as [tl |]; simpl; [| done].
    intros [= <-]. by rewrite (IH tl eq_refl).
Qed.

(** X9. [get_income_expense_summary] totals the credits and the debits of
    the window that can be read; rows whose date or amount cannot be read,
    rows outside the window and rows of another type count for nothing.
    The savings rate is the savings over the income, in percent, and 0
    without income. Whenever [calculate_daily_average] returns for the same
    window, it is these expenses divided by the days of the window. *)
Theorem income_expense_summary_totals (now : datetime)
    (transactions : list Transaction) (period_days : Z) :
  let s := get_income_expense_summary now transactions period_days in
  s_income s == Py.sum (window_credits now period_days transactions)
  ∧ s_expenses s == Py.sum (window_debits now period_days transactions)
  ∧ s_savings s == s_income s - s_expenses s
  ∧ (0 < s_income s → s_savings_rate s == s_savings s / s_income s * 100)
  ∧ (s_income s <= 0 → s_savings_rate s == 0)
  ∧ (∀ daily, (0 < period_days)%Z →
       calculate_daily_average now transactions period_days = Some daily →
       daily == s_expenses s / inject_Z period_days).
Proof.
  unfold get_income_expense_summary. cbv zeta.
  destruct (summary_fold now period_days transactions (0, 0)) as [Hin Hex].
  simpl in Hin, Hex. simpl.
  split; [| split; [| split; [| split; [| split]]]].
  - rewrite Hin. lra.
  - rewrite Hex. lra.
  - lra.
  - intros Hpos. by destruct (Qlt_le_dec 0 _); [| lra].
  - intros Hle. by destruct (Qlt_le_dec 0 _); [lra |].
  - intros daily Hdays. unfold calculate_daily_average.
    destruct transactions as [| t ts].
    + intros [= <-]. unfold Qeq. simpl. lia.
    + destruct (recent_expenses _ (t :: ts)) as [xs |] eqn:Hxs; simpl; [| done].
      apply recent_expenses_Some in Hxs. subst xs.
      destruct (Z.ltb_spec 0 period_days); [| lia].
      intros [= <-]. rewrite Hex. by rewrite Qplus_0_l.
Qed.

Lemma income_expense_summary_totals_witness :
  calculate_daily_average sample_now [debit 96 60; debit 95 30] 30 = Some (90 # 30)
  ∧ (90 # 30)
    == s_expenses (get_income_expense_summary sample_now [debit 96 60; debit 95 30] 30)
       / inject_Z 30.
Proof.
  split; [vm_compute; reflexivity |].
  destruct (income_expense_summary_totals sample_now [debit 96 60; debit 95 30] 30)
    as (_ & _ & _ & _ & _ & H).
  apply H; [reflexivity | vm_compute; reflexivity].
Defined.

End SummaryFacts.

Section CategoryFacts.
Import Analytics AnalyticsSpec.











(** A debit whose amount cannot be read leaves no key in
    [get_category_totals]. *)
Example category_totals_skip_unreadable :
  get_category_totals sample_now
    [{| t_date := Some 96%Z; t_type := "subtract"; t_amount := None;
        t_category := Some "rent" |}] 30
  = ∅.
Proof. reflexivity. Qed.




End CategoryFacts.

(** * Properties of the float arithmetic *)

(** The boolean tests of [QArith] in hypotheses, as propositions. *)
Ltac bool_to_prop :=
  repeat match goal with
         | H : Qle_bool _ _ = true |- _ => apply Qle_bool_iff in H
         | H : Qle_bool ?a ?b = false |- _ =>
             assert (¬ a <= b) by (intros ?%Qle_bool_iff; congruence); clear H
         | H : Qeq_bool _ _ = true |- _ => apply Qeq_bool_iff in H
         | H : Qeq_bool ?a ?b = false |- _ =>
             assert (¬ a == b) by (intros ?%Qeq_bool_iff; congruence); clear H
         end.

Section FloatFacts.

Lemma round_half_even_bounds (x : Q) :
  (Qfloor x <= Py.round_half_even x <= Qfloor x + 1)%Z.
Proof.
  unfold Py.round_half_even. cbv zeta.
  destruct (Qle_bool _ _); [destruct (Qeq_bool _ _); [destruct (Z.even _) |] |];
    lia.
Qed.

Lemma round_half_even_le (x y : Q) :
  x <= y → (Py.round_half_even x <= Py.round_half_even y)%Z.
Proof.
  intros Hxy.
  pose proof (Qfloor_resp_le _ _ Hxy) as Hf.
  destruct (Z.eq_dec (Qfloor x) (Qfloor y)) as [Heq | Hne].
  - unfold Py.round_half_even. cbv zeta. rewrite <- Heq.
    set (f := inject_Z (Qfloor x)).
    destruct (Qle_bool (x - f) (1 # 2)) eqn:Hx1,
      (Qeq_bool (x - f) (1 # 2)) eqn:Hx2,
      (Qle_bool (y - f) (1 # 2)) eqn:Hy1,
      (Qeq_bool (y - f) (1 # 2)) eqn:Hy2,
      (Z.even (Qfloor x));
      try lia; bool_to_prop; exfalso; lra.
  - pose proof (round_half_even_bounds x). pose proof (round_half_even_bounds y).
    lia.
Qed.

Lemma two_power_pos (e : Z) : 0 < 2 ^ e.
Proof. by apply Qpower_0_lt. Qed.

Lemma two_power_succ (e : Z) : 2 ^ (e + 1) == 2 * 2 ^ e.
Proof. rewrite Qpower_plus by done. change (2 ^ 1) with 2. ring. Qed.

Lemma floor_log2_spec (x : Q) :
  0 < x → 2 ^ Py.floor_log2 x <= x ∧ x < 2 ^ (Py.floor_log2 x + 1).
Proof.
  intros Hx. destruct x as [n d].
  assert (0 < n)%Z as Hn by (unfold Qlt in Hx; simpl in Hx; lia).
  unfold Py.floor_log2. simpl Qnum. simpl Qden.
  set (a := Z.log2 n). set (b := Z.log2 (Z.pos d)).
  pose proof (Z.log2_spec n Hn) as [Ha1 Ha2]. fold a in Ha1, Ha2.
  pose proof (Z.log2_spec (Z.pos d) ltac:(lia)) as [Hb1 Hb2]. fold b in Hb1, Hb2.
  assert (0 <= a)%Z as Ha0 by apply Z.log2_nonneg.
  assert (0 <= b)%Z as Hb0 by apply Z.log2_nonneg.
  rewrite Zle_Qle, Zpower_Qpower in Ha1, Hb1 by done.
  rewrite Zlt_Qlt, Zpower_Qpower in Ha2, Hb2 by lia.
  change (inject_Z 2) with 2 in *.
  replace (Z.succ a) with (a + 1)%Z in Ha2 by lia.
  replace (Z.succ b) with (b + 1)%Z in Hb2 by lia.
  rewrite two_power_succ in Ha2, Hb2.
  pose proof (two_power_pos a). pose proof (two_power_pos b).
  assert (2 ^ (a - b) == 2 ^ a / 2 ^ b) as He by (by apply Qpower_minus).
  assert (n # d == inject_Z n / inject_Z (Z.pos d)) as Hq by apply Qmake_Qdiv.
  set (N := inject_Z n) in *. set (D := inject_Z (Z.pos d)) in *.
  set (PA := 2 ^ a) in *. set (PB := 2 ^ b) in *.
  assert (0 < D) by lra.
  assert (n # d < 2 * (PA / PB)) as Hup.
  { rewrite Hq. apply Qlt_shift_div_r; [done |].
    apply Qlt_le_trans with (2 * PA); [done |].
    assert (PA == PA / PB * PB) as HPA by (field; lra).
    rewrite HPA at 1. assert (0 < PA / PB) by (apply Qlt_shift_div_l; lra). nra. }
  assert (PA / PB <= 2 * (n # d)) as Hlow.
  { rewrite Hq. apply Qle_shift_div_r; [done |].
    assert (N == N / D * D) as HN by (field; lra).
    assert (0 < N / D) by (apply Qlt_shift_div_l; lra).
    nra. }
  destruct (Qle_bool (2 ^ (a - b)) (n # d)) eqn:Hle; bool_to_prop.
  - split; [done |]. rewrite two_power_succ, He. done.
  - replace (a - b - 1 + 1)%Z with (a - b)%Z by lia. split; [| lra].
    assert (2 ^ (a - b) == 2 * 2 ^ (a - b - 1)) as Hs.
    { rewrite <- two_power_succ. by replace (a - b - 1 + 1)%Z with (a - b)%Z by lia. }
    lra.
Qed.

Lemma floor_log2_le (x y : Q) :
  0 < x → x <= y → (Py.floor_log2 x <= Py.floor_log2 y)%Z.
Proof.
  intros Hx Hxy.
  destruct (floor_log2_spec x Hx) as [Hx1 _].
  destruct (floor_log2_spec y ltac:(lra)) as [_ Hy2].
  assert (2 ^ Py.floor_log2 x < 2 ^ (Py.floor_log2 y + 1)) as Hlt by lra.
  apply Qpower_lt_compat_l_inv in Hlt; [lia | reflexivity].
Qed.

(** The float of a positive number: its significand times the power of
    two of its exponent. *)
Lemma round64_pos (x : Q) :
  0 < x →
  let e := Z.max (Py.floor_log2 x - 52) (-1074) in
  Py.round64 x == inject_Z (Py.round_half_even (x / 2 ^ e)) * 2 ^ e.
Proof.
  intros Hx. cbv zeta. unfold Py.round64.
  destruct (Qeq_bool x 0) eqn:Hz; bool_to_prop; [lra |].
  destruct (Qlt_le_dec x 0) as [? | _]; [lra |].
  rewrite Qred_correct.
  assert (Qabs x = x) as ->.
  { destruct x as [[| p | p] d]; try done. }
  ring.
Qed.

Lemma round64_neg (x : Q) : x < 0 → Py.round64 x == - Py.round64 (- x).
Proof.
  intros Hx. unfold Py.round64.
  destruct (Qeq_bool x 0) eqn:Hz; bool_to_prop; [lra |].
  destruct (Qeq_bool (- x) 0) eqn:Hz'; bool_to_prop; [lra |].
  destruct (Qlt_le_dec x 0) as [_ | ?]; [| lra].
  destruct (Qlt_le_dec (- x) 0) as [? | _]; [lra |].
  rewrite !Qred_correct.
  assert (Qabs (- x) = Qabs x) as ->.
  { destruct x as [[| p | p] d]; try done. }
  ring.
Qed.

Lemma round64_zero (x : Q) : x == 0 → Py.round64 x = 0.
Proof.
  intros Hx. unfold Py.round64.
  by destruct (Qeq_bool x 0) eqn:Hz; bool_to_prop.
Qed.

Lemma round64_pos_nonneg (x : Q) : 0 < x → 0 <= Py.round64 x.
Proof.
  intros Hx. rewrite (round64_pos x Hx).
  set (e := Z.max _ _).
  pose proof (two_power_pos e).
  assert (0 <= x / 2 ^ e) as Hq by (apply Qle_shift_div_l; lra).
  pose proof (Qfloor_resp_le _ _ Hq) as Hf. change (Qfloor 0) with 0%Z in Hf.
  pose proof (round_half_even_bounds (x / 2 ^ e)).
  assert (0 <= inject_Z (Py.round_half_even (x / 2 ^ e))) as Hm.
  { change 0 with (inject_Z 0). rewrite <- Zle_Qle. lia. }
  nra.
Qed.

Lemma round64_pos_le (x y : Q) :
  0 < x → x <= y → Py.round64 x <= Py.round64 y.
Proof.
  intros Hx Hxy. assert (0 < y) as Hy by lra.
  rewrite (round64_pos x Hx), (round64_pos y Hy).
  pose proof (floor_log2_le x y Hx Hxy) as Hfl.
  destruct (floor_log2_spec x Hx) as [_ Hx2].
  destruct (floor_log2_spec y Hy) as [Hy1 _].
  set (ex := Z.max (Py.floor_log2 x - 52) (-1074)).
  set (ey := Z.max (Py.floor_log2 y - 52) (-1074)).
  pose proof (two_power_pos ex) as Hpx. pose proof (two_power_pos ey) as Hpy.
  destruct (Z.eq_dec ex ey) as [Heq | Hne].
  - rewrite <- Heq.
    assert (x / 2 ^ ex <= y / 2 ^ ex) as Hq.
    { apply Qle_shift_div_l; [done |].
      assert (x / 2 ^ ex * 2 ^ ex == x) as -> by (field; lra). done. }
    pose proof (round_half_even_le _ _ Hq) as Hm. rewrite Zle_Qle in Hm. nra.
  - assert (ex + 1 <= ey)%Z as Hlt by lia.
    assert (ey = Py.floor_log2 y - 52)%Z as Hey by lia.
    assert (inject_Z (Py.round_half_even (x / 2 ^ ex)) <= 2 ^ 53) as Hmx.
    { assert (x / 2 ^ ex < 2 ^ 53) as Hq.
      { apply Qlt_shift_div_r; [done |].
        rewrite <- Qpower_plus by done.
        apply Qlt_le_trans with (2 ^ (Py.floor_log2 x + 1)); [done |].
        apply Qpower_le_compat_l; [lia | done]. }
      pose proof (round_half_even_bounds (x / 2 ^ ex)) as [_ Hb].
      assert (Qfloor (x / 2 ^ ex) < 2 ^ 53)%Z as Hf.
      { rewrite Zlt_Qlt. apply Qle_lt_trans with (x / 2 ^ ex); [apply Qfloor_le |].
        assert (inject_Z (2 ^ 53) == 2 ^ 53) as -> by reflexivity. done. }
      assert (inject_Z (2 ^ 53) == 2 ^ 53) as <- by reflexivity.
      rewrite <- Zle_Qle. lia. }
    assert (2 ^ 52 <= inject_Z (Py.round_half_even (y / 2 ^ ey))) as Hmy.
    { assert (2 ^ 52 <= y / 2 ^ ey) as Hq.
      { apply Qle_shift_div_l; [done |].
        rewrite <- Qpower_plus by done.
        apply Qle_trans with (2 ^ Py.floor_log2 y); [| done].
        apply Qpower_le_compat_l; [lia | done]. }
      pose proof (round_half_even_bounds (y / 2 ^ ey)) as [Hb _].
      assert (2 ^ 52 <= Qfloor (y / 2 ^ ey))%Z as Hf.
      { rewrite <- (Qfloor_Z (2 ^ 52)). apply Qfloor_resp_le.
        assert (inject_Z (2 ^ 52) == 2 ^ 52) as -> by reflexivity. done. }
      assert (inject_Z (2 ^ 52) == 2 ^ 52) as <- by reflexivity.
      rewrite <- Zle_Qle. lia. }
    assert (2 ^ 53 * 2 ^ ex <= 2 ^ 52 * 2 ^ ey) as Hpow.
    { rewrite <- !Qpower_plus by done. apply Qpower_le_compat_l; [lia | done]. }
    apply Qle_trans with (2 ^ 53 * 2 ^ ex); [nra |].
    apply Qle_trans with (2 ^ 52 * 2 ^ ey); [done | nra].
Qed.

(** Rounding to a float keeps the order. *)
Lemma round64_le (x y : Q) : x <= y → Py.round64 x <= Py.round64 y.
Proof.
  intros Hxy.
  destruct (Q_dec x 0) as [[Hx | Hx] | Hx], (Q_dec y 0) as [[Hy | Hy] | Hy];
    try lra.
  - rewrite (round64_neg x Hx), (round64_neg y Hy).
    apply Qopp_le_compat. apply round64_pos_le; lra.
  - rewrite (round64_neg x Hx).
    pose proof (round64_pos_nonneg (- x) ltac:(lra)).
    pose proof (round64_pos_nonneg y Hy). lra.
  - rewrite (round64_neg x Hx), (round64_zero y Hy).
    pose proof (round64_pos_nonneg (- x) ltac:(lra)). lra.
  - by apply round64_pos_le.
  - rewrite (round64_zero x Hx). by apply round64_pos_nonneg.
  - rewrite (round64_zero x Hx), (round64_zero y Hy). lra.
Qed.

(** A float is rounded to itself; here, the three that the goals compare
    with. *)
Lemma round64_fixed :
  Py.round64 0 = 0 ∧ Py.round64 1 = 1 ∧ Py.round64 100 = 100.
Proof. vm_compute. done. Qed.

End FloatFacts.

Section RatioFacts.
Import Analytics AnalyticsSpec.


Lemma ratio_ge (c t k : Q) : 0 < t → (k <= c / t ↔ k * t <= c).
Proof.
  intros Ht.
  assert (c == c / t * t) as Hc by (field; lra).
  set (q := c / t) in *. split; intros H.
  - rewrite Hc. nra.
  - rewrite Hc in H. nra.
Qed.

Lemma ratio_lt (c t k : Q) : 0 < t → (c / t < k ↔ c < k * t).
Proof.
  intros Ht.
  assert (c == c / t * t) as Hc by (field; lra).
  set (q := c / t) in *. split; intros H.
  - rewrite Hc. nra.
  - rewrite Hc in H. nra.
Qed.


End RatioFacts.

Section GoalFacts.
Import Analytics AnalyticsSpec.

(** What holds of an entry of the result of [calculate_goal_progress]. *)
Lemma goal_progress_entry `{!Py.FloatSum} now current_savings transactions goal
    target r :
  0 < target →
  goal_progress now current_savings transactions goal target = Some r →
  p_target r = target
  ∧ p_type r = default "savings" (g_type goal)
  ∧ p_description r = default "Goal" (g_description goal)
  ∧ p_progress r <= 100
  ∧ 0 <= p_remaining r
  ∧ (p_completed r = true → p_progress r == 100)
  ∧ (target <= p_current r →
     p_completed r = true ∧ p_progress r == 100 ∧ p_remaining r == 0)
  ∧ (p_type r = "savings" → p_current r = current_savings)
  ∧ (p_on_track r = false →
     p_type r = "savings"
     ∧ ∃ d, p_days_remaining r = Some d ∧ (0 < d < 30)%Z).
Proof.
  intros Ht. unfold goal_progress.
  set (goal_type := default "savings" (g_type goal)).
  destruct (if goal_type =? "savings" then Some current_savings else _)
    as [current |] eqn:Hcur; simpl; [| done].
  assert (goal_type = "savings" → current = current_savings) as Hsav.
  { intros Heq. rewrite Heq in Hcur. simpl in Hcur. congruence. }
  destruct (Qlt_le_dec 0 target) as [_ | ?]; [| lra].
  set (progress := Py.fmul (Py.fdiv current target) 100).
  set (remaining := Py.fsub target current).
  assert (target <= current → 100 <= progress ∧ remaining <= 0) as Hdone.
  { intros Hle. destruct round64_fixed as (H0 & H1 & H100). split.
    - unfold progress, Py.fmul, Py.fdiv. rewrite <- H100 at 1.
      apply round64_le.
      assert (1 <= Py.round64 (current / target)) as Hq.
      { rewrite <- H1 at 1. apply round64_le.
        apply Qle_shift_div_l; [done | lra]. }
      lra.
    - unfold remaining, Py.fsub. rewrite <- H0. apply round64_le. lra. }
  assert (∀ days_remaining on_track,
            match g_deadline goal with
            | DeadlineDay day =>
                let days_remaining :=
                  ((midnight day - now) / microseconds_per_day)%Z in
                if (0 <? days_remaining)%Z && (goal_type =? "savings") then
                  (Some days_remaining,
                   if (days_remaining <? 30)%Z
                   then Qle_bool
                          (Py.fsub 100
                             (Py.fmul (Py.fdiv (inject_Z days_remaining) 30) 100))
                          progress
                   else true)
                else (Some days_remaining, true)
            | _ => (None, true)
            end = (days_remaining, on_track) →
            on_track = false →
            goal_type = "savings"
            ∧ ∃ d, days_remaining = Some d ∧ (0 < d < 30)%Z) as Htrack.
  { intros days_remaining on_track.
    destruct (g_deadline goal) as [| | day]; [by intros [= <- <-] .. |].
    cbv zeta. set (d := ((midnight day - now) / microseconds_per_day)%Z).
    destruct (Z.ltb_spec 0 d); simpl; [| by intros [= <- <-]].
    destruct (String.eqb_spec goal_type "savings"); simpl;
      [| by intros [= <- <-]].
    destruct (Z.ltb_spec d 30); [| by intros [= <- <-]].
    intros [= <- <-] _. split; [done |]. exists d. split; [done | lia]. }
  destruct (match g_deadline goal with DeadlineDay _ => _ | _ => _ end)
    as [days_remaining on_track].
  specialize (Htrack days_remaining on_track eq_refl).
  intros [= <-]. simpl.
  unfold Py.min_float, Py.max_float.
  split; [done |]. split; [done |]. split; [done |].
  destruct (Qle_bool 100 progress) eqn:Hcompleted; bool_to_prop.
  - destruct (Qlt_le_dec 100 progress), (Qlt_le_dec remaining 0);
      repeat split; intros; try done; try lra;
      try (destruct Hdone; [done | lra]);
      try (by apply Hsav); try (by apply Htrack).
  - destruct (Qlt_le_dec 100 progress), (Qlt_le_dec remaining 0);
      repeat split; intros; try done; try lra;
      try (destruct Hdone; [done | lra]);
      try (by apply Hsav); try (by apply Htrack).
Qed.

(** X14. [calculate_goal_progress] skips the goals whose target is not
    positive and answers the others one by one, in order, each with its
    target, type and description. In every entry the progress is at most
    100 and the remaining amount is not negative; a completed goal shows a
    progress of 100; a goal whose current amount reaches the target is
    completed, with a progress of 100 and nothing remaining; a savings goal
    takes the current savings as its current amount; and only a savings
    goal with fewer than 30 days left can be off track. Without
    transactions the function always returns. *)
Theorem goal_progress_bounds `{!Py.FloatSum} (now : datetime) (goals : list Goal)
    (current_savings : Q) (transactions : option (list Transaction)) :
  is_Some (calculate_goal_progress now goals current_savings None)
  ∧ ∀ results,
      calculate_goal_progress now goals current_savings transactions
      = Some results →
      Forall2 (λ goal r,
          p_target r = default 0 (g_target goal)
          ∧ p_type r = default "savings" (g_type goal)
          ∧ p_description r = default "Goal" (g_description goal)
          ∧ p_progress r <= 100
          ∧ 0 <= p_remaining r
          ∧ (p_completed r = true → p_progress r == 100)
          ∧ (p_target r <= p_current r →
             p_completed r = true ∧ p_progress r == 100 ∧ p_remaining r == 0)
          ∧ (p_type r = "savings" → p_current r = current_savings)
          ∧ (p_on_track r = false →
             p_type r = "savings"
             ∧ ∃ d, p_days_remaining r = Some d ∧ (0 < d < 30)%Z))
        (filter (λ goal, Qle_bool (default 0 (g_target goal)) 0 = false) goals)
        results.
Proof.
  split.
  - induction goals as [| goal rest IH]; simpl; [by eexists |].
    destruct (Qle_bool (default 0 (g_target goal)) 0); [done |].
    destruct IH as [tl ->]. unfold goal_progress. simpl.
    destruct (default "savings" (g_type goal) =? "savings"); simpl;
      [| rewrite andb_false_r; simpl];
      by destruct (match g_deadline goal with DeadlineDay _ => _ | _ => _ end);
        eexists.
  - induction goals as [| goal rest IH]; intros results; simpl.
    + intros [= <-]. constructor.
    + rewrite filter_cons.
      destruct (Qle_bool (default 0 (g_target goal)) 0) eqn:Htarget.
      * rewrite decide_False by done. apply IH.
      * rewrite decide_True by done.
        assert (0 < default 0 (g_target goal)) as Hpos.
        { destruct (Qlt_le_dec 0 (default 0 (g_target goal))) as [| Hle]; [done |].
          apply Qle_bool_iff in Hle. congruence. }
        destruct (goal_progress now current_savings transactions goal _)
          as [r |] eqn:Hr; simpl; [| done].
        destruct (calculate_goal_progress now rest current_savings transactions)
          as [tl |]; simpl; [| done].
        intros [= <-]. constructor; [| by apply IH].
        destruct (goal_progress_entry _ _ _ _ _ _ Hpos Hr)
          as (Htgt & ? & ? & ? & ? & ? & ? & ? & ?).
        rewrite Htgt. repeat (split; [assumption || reflexivity |]). assumption.
Qed.

Lemma goal_progress_bounds_witness :
  ∃ r,
    @calculate_goal_progress Py.float_sum sample_now
      [{| g_target := Some 1000; g_type := Some "savings"; g_description := None;
          g_deadline := NoDeadline; g_current := None |};
       {| g_target := Some 0; g_type := None; g_description := None;
          g_deadline := NoDeadline; g_current := None |}] 1500 None = Some [r]
    ∧ p_progress r == 100 ∧ p_remaining r == 0 ∧ p_completed r = true.
Proof.
  destruct (@goal_progress_bounds Py.float_sum sample_now
              [{| g_target := Some 1000; g_type := Some "savings";
                  g_description := None; g_deadline := NoDeadline;
                  g_current := None |};
               {| g_target := Some 0; g_type := None; g_description := None;
                  g_deadline := NoDeadline; g_current := None |}] 1500 None)
    as [[results Hres] Hall].
  pose proof (Hall results Hres) as Hfor.
  assert (∃ r, results = [r] ∧ p_current r = 1500) as (r & -> & Hc).
  { vm_compute in Hres. injection Hres as <-. by eexists. }
  exists r. split; [exact Hres |].
  rewrite filter_cons_True in Hfor by reflexivity.
  inversion Hfor as [| ? ? ? ? (Ht & _ & _ & _ & _ & _ & Hdone & _) _]; subst.
  destruct Hdone as (? & ? & ?); [| done].
  rewrite Ht, Hc. simpl. lra.
Defined.

(** The [on_track] test compares floats. With a target of 300, savings of
    200 and 10 days left, both sides are two thirds of 100; the progress
    is rounded to the float below, the share of the days to the float
    above, and the goal is off track. *)
Example on_track_compares_floats :
  let goal := {| g_target := Some 300; g_type := Some "savings";
                 g_description := None; g_deadline := DeadlineDay 110;
                 g_current := None |} in
  p_on_track <$> @goal_progress Py.float_sum (midnight 100) 200 None goal 300
  = Some false
  ∧ Py.fmul (Py.fdiv 200 300) 100 < Py.fsub 100 (Py.fmul (Py.fdiv 10 30) 100)
  ∧ 200 / 300 * 100 == 100 - 10 / 30 * 100.
Proof. vm_compute. done. Qed.



End GoalFacts.

Section BudgetAlertFacts.
Import AnalyticsSpec.



End BudgetAlertFacts.
